(** * aletheia_home: transcript parser and batch uploader

    A shallow embedding of [conversation_parser.py], [batch_import_history.py]
    and [import_conversation.py], and the properties of their specification.

    Conventions of the embedding:
    - a Python [str] is the list of its code points ([N]); ASCII literals of
      the source are written [lit "..."];
    - a naive [datetime] is the number of microseconds since an arbitrary
      epoch ([Z]); a [timedelta] is a number of microseconds; the bounds of
      [datetime] (years 1 to 9999) are left out.  Where the code stores
      [d.isoformat()], the model stores [d] itself;
    - [datetime.now()] and [uuid.uuid4()] are read from an environment: the
      n-th call of a run returns the n-th element of a sequence;
    - a dict whose keys are those of the literal that builds it, and which
      the code reads by these keys only, is a record; the [metadata] dict,
      which later stages extend, is a [gmap string pyval], and so is the
      request payload of [import_conversation.py], which is indexed by a key
      that the literal building it does not have. *)

From Stdlib Require Import ZArith NArith List Lia DecimalString.
From stdpp Require Import gmap strings list fin_maps.

Set Default Proof Using "Type".

(** ** Python strings *)

Module PyStr.

Definition char := N.
Definition str := list char.

(** An ASCII literal of the source, as a sequence of code points. *)
Definition lit (s : string) : str :=
  map Ascii.N_of_ascii (String.list_ascii_of_string s).

Definition between (lo hi c : char) : bool := (lo <=? c)%N && (c <=? hi)%N.
Arguments between (lo hi c)%_N_scope.

(** [str.isspace] on one character; the class [\s] of [re] on [str]
    patterns is the same set. *)
Definition isspace (c : char) : bool :=
  (between 9 13 c || between 28 32 c || (c =? 133) || (c =? 160)
   || (c =? 5760) || between 8192 8202 c || (c =? 8232) || (c =? 8233)
   || (c =? 8239) || (c =? 8287) || (c =? 12288))%N.

(** First code points of the blocks of decimal digits (Unicode 14 category
    Nd, the class [\d] of [re] on [str] patterns); every block has ten
    digits, the mathematical digits at 0x1D7CE are five blocks. *)
Definition decimal_blocks : list N :=
  [ 0x30; 0x660; 0x6f0; 0x7c0; 0x966; 0x9e6; 0xa66; 0xae6; 0xb66; 0xbe6;
    0xc66; 0xce6; 0xd66; 0xde6; 0xe50; 0xed0; 0xf20; 0x1040; 0x1090;
    0x17e0; 0x1810; 0x1946; 0x19d0; 0x1a80; 0x1a90; 0x1b50; 0x1bb0;
    0x1c40; 0x1c50; 0xa620; 0xa8d0; 0xa900; 0xa9d0; 0xa9f0; 0xaa50;
    0xabf0; 0xff10; 0x104a0; 0x10d30; 0x11066; 0x110f0; 0x11136; 0x111d0;
    0x112f0; 0x11450; 0x114d0; 0x11650; 0x116c0; 0x11730; 0x118e0;
    0x11950; 0x11c50; 0x11d50; 0x11da0; 0x16a60; 0x16ac0; 0x16b50;
    0x1d7ce; 0x1d7d8; 0x1d7e2; 0x1d7ec; 0x1d7f6; 0x1e140; 0x1e2f0;
    0x1e950; 0x1fbf0 ]%N.

Definition isdecimal (c : char) : bool :=
  existsb (fun b => between b (b + 9)%N c) decimal_blocks.

Definition str_eqb (s t : str) : bool := bool_decide (s = t).

(** [s.lstrip(chars)] / [s.rstrip(chars)] for a character class. *)
Fixpoint lstrip_of (p : char → bool) (s : str) : str :=
  match s with
  | c :: s' => if p c then lstrip_of p s' else s
  | [] => []
  end.

Definition rstrip_of (p : char → bool) (s : str) : str :=
  rev (lstrip_of p (rev s)).

(** [s.strip()] *)
Definition strip (s : str) : str := rstrip_of isspace (lstrip_of isspace s).

(** [s.startswith(prefix)] *)
Fixpoint startswith (s prefix : str) : bool :=
  match prefix, s with
  | [], _ => true
  | p :: prefix', c :: s' => (p =? c)%N && startswith s' prefix'
  | _ :: _, [] => false
  end.

(** [s.endswith(suffix)] *)
Definition endswith (s suffix : str) : bool :=
  startswith (rev s) (rev suffix).

(** [c in s] for a one-character string [c] *)
Definition contains (c : char) (s : str) : bool :=
  existsb (fun d => (c =? d)%N) s.

(** ['\n'.join(parts)] *)
Fixpoint join (sep : str) (parts : list str) : str :=
  match parts with
  | [] => []
  | [p] => p
  | p :: rest => p ++ sep ++ join sep rest
  end.

(** [re.match(r'^(p1|p2|...)', s)] for literal alternatives: some
    alternative is a prefix of [s]. *)
Definition match_any_prefix (alts : list str) (s : str) : bool :=
  existsb (startswith s) alts.

(** [re.sub(r'\s+', ' ', s)]: every maximal run of whitespace becomes one
    space; [in_run] says that the preceding character was whitespace. *)
Fixpoint collapse_ws_from (in_run : bool) (s : str) : str :=
  match s with
  | [] => []
  | c :: s' =>
      if isspace c then
        if in_run then collapse_ws_from true s'
        else 32%N :: collapse_ws_from true s'
      else c :: collapse_ws_from false s'
  end.

Definition collapse_ws (s : str) : str := collapse_ws_from false s.

End PyStr.

Import PyStr.

(** ** Data model *)

Definition datetime := Z.

(** [timedelta(days=d)] and [timedelta(minutes=m)], in microseconds. *)
Definition timedelta_days (d : Z) : Z := (d * 86400000000)%Z.
Definition timedelta_minutes (m : Z) : Z := (m * 60000000)%Z.

(** The role tags ['kai'] (the human), ['aletheia'] (the AI), ['system']. *)
Inductive speaker := kai | aletheia | system.

#[global] Instance speaker_eq_dec : EqDecision speaker.
Proof. solve_decision. Defined.

(** Python values as they occur in the JSON documents and request payloads
    of the scripts. [PIso d] is the text [d.isoformat()]. *)
#[warnings="-register-all"]
Inductive pyval :=
| PNone
| PBool (b : bool)
| PInt (n : Z)
| PStr (s : str)
| PIso (d : datetime)
| PList (l : list pyval)
| PDict (d : gmap string pyval).

(** One parsed message: the dict appended to [self.messages]. *)
Record message := Message {
  msg_id : str;
  role : speaker;
  content : str;
  timestamp : datetime;
  metadata : gmap string pyval
}.

(** The persisted document [parsed_conversation.json], as [save_parsed_data]
    writes it: a metadata block and the list of messages. *)
Record conversation_data := ConversationData {
  conversation_metadata : gmap string pyval;
  cd_messages : list message
}.

(** The sources of clock readings and of random identifiers of one run:
    [now E n] is the value of the n-th call of [datetime.now()] (counted from
    0), [uuid4 E n] the text of the n-th [uuid.uuid4()]. *)
Record env := Env {
  now : nat → datetime;
  uuid4 : nat → str
}.

(** A clock that shows the same time at every reading. *)
Definition pinned (t : datetime) : nat → datetime := fun _ => t.

(** ** conversation_parser.py *)

Module ConversationParser.

(** The attributes of a [ConversationParser] object. *)
Record parser := Parser {
  file_path : str;
  self_messages : list message;
  self_current_speaker : option speaker;
  message_buffer : list str
}.

(** [ConversationParser(file_path)] *)
Definition init (path : str) : parser :=
  {| file_path := path; self_messages := [];
     self_current_speaker := None; message_buffer := [] |}.

Definition is_newline (c : char) : bool := ((c =? 10) || (c =? 13))%N.
Definition is_bom (c : char) : bool := (c =? 0xfeff)%N.

(** Lines printed on the console. *)
Inductive console_line :=
| Usage
| ErrorReadingFile
| SavedTo (output_file : str)
| TotalMessages (n : nat)
| ErrorSaving
| Summary (total kai_count aletheia_count system_count : nat)
    (sample : list message)
| NoMessagesParsed.

(** [read_file]: [file] is the result of [f.readlines()], or [None] when
    opening or reading the file raised; the exception is caught and
    reported on the console, and the result is the empty list. *)
Definition read_file (file : option (list str))
    : list str * list console_line :=
  match file with
  | Some raw => (map (rstrip_of is_newline) raw, [])
  | None => ([], [ErrorReadingFile])
  end.

(** [^\s*[A-Z][a-z]+:] at the start of the line. *)
Definition match_name_colon (s : str) : bool :=
  match lstrip_of isspace s with
  | c :: rest =>
      between 65 90 c &&
      match rest with
      | d :: _ =>
          between 97 122 d &&
          match lstrip_of (between 97 122) rest with
          | e :: _ => (e =? 58)%N
          | [] => false
          end
      | [] => false
      end
  | [] => false
  end.

Definition aletheia_patterns : list (str → bool) :=
  [ match_any_prefix [lit "That's"; lit "You're"; lit "I am";
                      lit "Thank you"; lit "My apologies"];
    match_any_prefix [lit "The"; lit "This"; lit "Your"; lit "It's";
                      lit "What"];
    match_any_prefix [lit "From my perspective"; lit "While I don't";
                      lit "If you"];
    match_any_prefix [lit "Aletheia:"; lit "You are absolutely";
                      lit "That is a"];
    match_any_prefix [lit "I have"; lit "I understand"; lit "I'm"];
    match_name_colon ].

Definition detect_speaker_change
    (self : parser) (line : str) (line_number : nat) : option speaker :=
  if bool_decide (strip line = []) then None
  else
    let line := lstrip_of is_bom line in
    if existsb (str_eqb (strip line))
         [lit "Google Search"; lit "Same loop"; lit "Same loop?"]
    then Some system
    else if match_any_prefix
              [lit "More loop?"; lit "Did you recieve my message?"]
              (strip line)
    then Some kai
    else if existsb (fun pattern => pattern line) aletheia_patterns
    then Some aletheia
    else if bool_decide (self_current_speaker self = Some aletheia)
            && (startswith line (lit "   ") || startswith line (lit "*")
                || startswith line (lit "                        "))
    then Some aletheia
    else if (length (strip line) <? 50)
            && (contains 63%N line || endswith (strip line) (lit ".")
                || startswith (strip line) (lit "Hi")
                || startswith (strip line) (lit "No,"))
    then Some kai
    else if (line_number =? 1)
            || startswith (strip line) (lit "Hi, how are you?")
    then Some kai
    else Some (default kai (self_current_speaker self)).

(** The marker after the digits in the line-number pattern, as the source
    file spells it. *)
Definition line_number_marker : str := [0xe2; 0x2020; 0x2019]%N.

(** [re.sub(r'^\s*\d+<marker>', '', message)] *)
Definition sub_line_number (message : str) : str :=
  match lstrip_of isspace message with
  | c :: _ =>
      if isdecimal c then
        let after_digits := lstrip_of isdecimal (lstrip_of isspace message) in
        if startswith after_digits line_number_marker
        then drop (length line_number_marker) after_digits
        else message
      else message
  | [] => message
  end.

Definition clean_message (message : str) : str :=
  let message := collapse_ws (strip message) in
  let message := lstrip_of is_bom message in
  let message := sub_line_number message in
  strip message.

(** The local variables of [parse_conversation] during the loop, the list
    [self.messages], and the numbers of clock readings and identifiers
    drawn so far. *)
Record locals := Locals {
  messages : list message;
  current_message : list str;
  current_speaker : option speaker;
  now_calls : nat;
  uuid_calls : nat
}.

(** The two [self.messages.append({...})] statements, which differ in the
    line range only. *)
Definition append_message (E : env) (base_timestamp : datetime)
    (message_text : str) (line_start line_end : Z) (spk : speaker)
    (st : locals) : locals :=
  let timestamp :=
    (base_timestamp
     + timedelta_minutes (Z.of_nat (length (messages st)) * 2))%Z in
  let msg :=
    {| msg_id := uuid4 E (uuid_calls st);
       role := spk;
       content := message_text;
       timestamp := timestamp;
       metadata :=
         <["imported_at" := PIso (now E (now_calls st))]>
         (<["line_end" := PInt line_end]>
          (<["line_start" := PInt line_start]>
           {["source" := PStr (lit "historical_conversation")]})) |} in
  {| messages := messages st ++ [msg];
     current_message := current_message st;
     current_speaker := current_speaker st;
     now_calls := S (now_calls st);
     uuid_calls := S (uuid_calls st) |}.

(** [if current_message and current_speaker: ... if message_text: ...] *)
Definition flush (E : env) (base_timestamp : datetime)
    (line_start line_end : Z) (st : locals) : locals :=
  match current_message st, current_speaker st with
  | _ :: _, Some spk =>
      let message_text := clean_message (join [10%N] (current_message st)) in
      if bool_decide (message_text = []) then st
      else append_message E base_timestamp message_text
             line_start line_end spk st
  | _, _ => st
  end.

(** One iteration of [for i, line in enumerate(lines)]. *)
Definition body (E : env) (self : parser) (base_timestamp : datetime)
    (i : nat) (line : str) (st : locals) : locals :=
  if bool_decide (strip line = []) then st
  else
    let detected_speaker := detect_speaker_change self line (i + 1) in
    match detected_speaker with
    | Some d =>
        if bool_decide (Some d ≠ current_speaker st) then
          let st :=
            flush E base_timestamp
              (Z.of_nat i + 1 - Z.of_nat (length (current_message st)))%Z
              (Z.of_nat i) st in
          {| messages := messages st;
             current_message := [line];
             current_speaker := Some d;
             now_calls := now_calls st;
             uuid_calls := uuid_calls st |}
        else
          {| messages := messages st;
             current_message := current_message st ++ [line];
             current_speaker := current_speaker st;
             now_calls := now_calls st;
             uuid_calls := uuid_calls st |}
    | None =>
        {| messages := messages st;
           current_message := current_message st ++ [line];
           current_speaker := current_speaker st;
           now_calls := now_calls st;
           uuid_calls := uuid_calls st |}
    end.

Fixpoint loop (E : env) (self : parser) (base_timestamp : datetime)
    (i : nat) (lines : list str) (st : locals) : locals :=
  match lines with
  | [] => st
  | line :: rest =>
      loop E self base_timestamp (S i) rest
        (body E self base_timestamp i line st)
  end.

(** The state in which [parse_conversation] leaves its local variables
    after the final flush. *)
Definition run (E : env) (self : parser) (lines : list str) : locals :=
  let base_timestamp := (now E 0 - timedelta_days 30)%Z in
  let st :=
    loop E self base_timestamp 0 lines
      {| messages := self_messages self; current_message := [];
         current_speaker := None; now_calls := 1; uuid_calls := 0 |} in
  flush E base_timestamp
    (Z.of_nat (length lines) - Z.of_nat (length (current_message st)) + 1)%Z
    (Z.of_nat (length lines)) st.

(** What a call of [parse_conversation] leaves behind: the returned list,
    the object, the console, and the number of clock readings made. *)
Record parsed := Parsed {
  returned : list message;
  self_after : parser;
  printed : list console_line;
  clock_reads : nat
}.

Definition parse_conversation (E : env) (self : parser)
    (file : option (list str)) : parsed :=
  let '(lines, report) := read_file file in
  match lines with
  | [] =>
      {| returned := []; self_after := self; printed := report;
         clock_reads := 0 |}
  | _ :: _ =>
      let st := run E self lines in
      {| returned := messages st;
         self_after :=
           {| file_path := file_path self;
              self_messages := messages st;
              self_current_speaker := self_current_speaker self;
              message_buffer := message_buffer self |};
         printed := report;
         clock_reads := now_calls st |}
  end.

Definition count_role (r : speaker) (msgs : list message) : nat :=
  length (filter (fun m => role m = r) msgs).

(** The document that [save_parsed_data] dumps. *)
Definition parsed_document (self : parser) (parsing_timestamp : datetime)
    : conversation_data :=
  {| conversation_metadata :=
       <["system_messages" :=
           PInt (Z.of_nat (count_role system (self_messages self)))]>
       (<["aletheia_messages" :=
           PInt (Z.of_nat (count_role aletheia (self_messages self)))]>
        (<["kai_messages" :=
            PInt (Z.of_nat (count_role kai (self_messages self)))]>
         (<["parsing_timestamp" := PIso parsing_timestamp]>
          (<["total_messages" :=
              PInt (Z.of_nat (length (self_messages self)))]>
           {["source_file" := PStr (file_path self)]}))));
     cd_messages := self_messages self |}.

(** The effects of the script outside the parser object: the files
    written and the console. *)
Record outside := Outside {
  written : list (str * conversation_data);
  stdout : list console_line
}.

(** [save_parsed_data]; [writable] says whether opening and writing the
    output file goes through, otherwise the exception is caught and
    reported. *)
Definition save_parsed_data (writable : bool) (self : parser)
    (parsing_timestamp : datetime) (output_file : str) (o : outside)
    : outside :=
  if writable then
    {| written :=
         written o ++ [(output_file, parsed_document self parsing_timestamp)];
       stdout :=
         stdout o ++ [SavedTo output_file;
                      TotalMessages (length (self_messages self))] |}
  else {| written := written o; stdout := stdout o ++ [ErrorSaving] |}.

Definition print_summary (self : parser) (o : outside) : outside :=
  {| written := written o;
     stdout :=
       stdout o
       ++ [Summary (length (self_messages self))
             (count_role kai (self_messages self))
             (count_role aletheia (self_messages self))
             (count_role system (self_messages self))
             (take 6 (self_messages self))] |}.

(** [main]: [argv] is [sys.argv], [fs path] what reading the file at
    [path] gives. The result is the exit status of the process and the
    effects. *)
Definition main (E : env) (fs : str → option (list str)) (writable : bool)
    (argv : list str) : Z * outside :=
  match argv with
  | [_; input_file] =>
      let output_file := lit "parsed_conversation.json" in
      let parser := init input_file in
      let p := parse_conversation E parser (fs input_file) in
      let o := {| written := []; stdout := printed p |} in
      match returned p with
      | _ :: _ =>
          let o :=
            save_parsed_data writable (self_after p)
              (now E (clock_reads p)) output_file o in
          (0%Z, print_summary (self_after p) o)
      | [] =>
          (0%Z, {| written := written o;
                   stdout := stdout o ++ [NoMessagesParsed] |})
      end
  | _ => (1%Z, {| written := []; stdout := [Usage] |})
  end.

End ConversationParser.

(** ** batch_import_history.py *)

Module BatchImportHistory.

(** One record of the request: the dict [formatted_msg]. *)
Record formatted_msg := FormattedMsg {
  f_role : speaker;
  f_content : str;
  f_timestamp : datetime;
  externalId : str;
  f_metadata : gmap string pyval
}.

Record import_options := ImportOptions {
  platform : str;
  dryRun : bool;
  sessionId : pyval
}.

(** The request payload [{"data": {"messages", "memories"}, "options"}]. *)
Record batch_data := BatchData {
  data_messages : list formatted_msg;
  data_memories : list pyval;
  options : import_options
}.

Definition format_message (msg : message) (i : nat) : formatted_msg :=
  {| f_role := role msg;
     f_content := content msg;
     f_timestamp := timestamp msg;
     externalId := msg_id msg;
     f_metadata :=
       <["original_order" := PInt (Z.of_nat i)]>
       (<["batch_import" := PBool true]>
        (<["foundational_memory" := PBool true]>
         (<["historical_import" := PBool true]> (metadata msg)))) |}.

(** [for i in range(start_idx, end_idx): msg = messages[i] ...]; the
    index is below [len(messages)], so the subscript never raises. *)
Definition create_batch (messages : list message)
    (start_idx batch_size : nat) : batch_data :=
  let end_idx := min (start_idx + batch_size) (length messages) in
  let batch_messages :=
    omap (fun i => (fun msg => format_message msg i) <$> messages !! i)
         (seq start_idx (end_idx - start_idx)) in
  {| data_messages := batch_messages;
     data_memories := [];
     options := {| platform := lit "manual"; dryRun := false;
                   sessionId := PNone |} |}.

(** What [requests.post] does: it raises, or it returns a response with a
    status code and a body; the body of a response is [Some] JSON object
    with integer counts, or [None] when [response.json()] or [result.get]
    raises. *)
Inductive reply :=
| TransportError
| Response (status_code : Z) (json : option (gmap string Z)).

(** Lines printed on the console. *)
Inductive console_line :=
| LoadError
| ProcessingBatch (batch_num total_batches batch_start batch_end : nat)
| BatchImported (batch_num total_batches : nat)
    (processed_count success_count failed_count : Z)
| BatchFailedStatus (batch_num total_batches : nat) (status_code : Z)
| BatchError (batch_num total_batches : nat)
| BatchFailedContinuing (batch_num : nat)
| ImportSummary (total_success total_failed : Z)
| ImportedSuccessfully
| ImportFailedCompletely.

Section Uploading.

(** The remote endpoint: a state and the effect of one POST on it. *)
Context {World : Type}.
Context (post : World → batch_data → World * reply).

Definition import_batch (w : World) (batch : batch_data)
    (batch_num total_batches : nat)
    : World * list console_line * (bool * Z * Z) :=
  let '(w, r) := post w batch in
  match r with
  | Response status_code (Some result) =>
      if bool_decide (status_code = 200%Z) then
        let success_count := default 0%Z (result !! "successful") in
        let failed_count := default 0%Z (result !! "failed") in
        let processed_count := default 0%Z (result !! "totalProcessed") in
        (w, [BatchImported batch_num total_batches
               processed_count success_count failed_count],
         (true, success_count, failed_count))
      else
        (w, [BatchFailedStatus batch_num total_batches status_code],
         (false, 0%Z, Z.of_nat (length (data_messages batch))))
  | Response status_code None =>
      if bool_decide (status_code = 200%Z) then
        (w, [BatchError batch_num total_batches],
         (false, 0%Z, Z.of_nat (length (data_messages batch))))
      else
        (w, [BatchFailedStatus batch_num total_batches status_code],
         (false, 0%Z, Z.of_nat (length (data_messages batch))))
  | TransportError =>
      (w, [BatchError batch_num total_batches],
       (false, 0%Z, Z.of_nat (length (data_messages batch))))
  end.

(** The running totals of [batch_import], the console, the state of the
    endpoint, and the requests submitted so far, oldest first. *)
Record run_state := RunState {
  world : World;
  total_success : Z;
  total_failed : Z;
  console : list console_line;
  sent : list (nat * batch_data)
}.

(** One iteration of [for batch_num in range(1, total_batches + 1)]. *)
Definition step (messages : list message) (batch_size total_batches : nat)
    (st : run_state) (batch_num : nat) : run_state :=
  let total_messages := length messages in
  let start_idx := (batch_num - 1) * batch_size in
  let batch_start := start_idx + 1 in
  let batch_end := min (start_idx + batch_size) total_messages in
  let batch := create_batch messages start_idx batch_size in
  let '(w, printed, (success, batch_success, batch_failed)) :=
    import_batch (world st) batch batch_num total_batches in
  {| world := w;
     total_success := (total_success st + batch_success)%Z;
     total_failed := (total_failed st + batch_failed)%Z;
     console :=
       console st
       ++ [ProcessingBatch batch_num total_batches batch_start batch_end]
       ++ printed
       ++ (if success then [] else [BatchFailedContinuing batch_num]);
     sent := sent st ++ [(batch_num, batch)] |}.

Definition total_batches_of (total_messages batch_size : nat) : nat :=
  (total_messages + batch_size - 1) / batch_size.

Definition start_state (w : World) : run_state :=
  {| world := w; total_success := 0; total_failed := 0;
     console := []; sent := [] |}.

(** The loop, over the batch numbers it is given. *)
Definition upload (messages : list message) (batch_size : nat)
    (batch_nums : list nat) (st : run_state) : run_state :=
  fold_left
    (step messages batch_size
       (total_batches_of (length messages) batch_size))
    batch_nums st.

(** [batch_import] with the batch size as a parameter; [file] is the
    document that [load_conversation_data] read, [None] when loading
    raised. *)
Definition batch_import_sized (batch_size : nat) (w : World)
    (file : option conversation_data) : bool * run_state :=
  match file with
  | None =>
      (false,
       {| world := w; total_success := 0; total_failed := 0;
          console := [LoadError]; sent := [] |})
  | Some data =>
      let messages := cd_messages data in
      let total_batches := total_batches_of (length messages) batch_size in
      let st :=
        upload messages batch_size (seq 1 total_batches) (start_state w) in
      (bool_decide (0 < total_success st)%Z,
       {| world := world st;
          total_success := total_success st;
          total_failed := total_failed st;
          console :=
            console st
            ++ [ImportSummary (total_success st) (total_failed st)];
          sent := sent st |})
  end.

Definition batch_size : nat := 50.

Definition batch_import := batch_import_sized batch_size.

(** The script: the exit status of the process and the final state. *)
Definition main (w : World) (file : option conversation_data)
    : Z * run_state :=
  let '(success, st) := batch_import w file in
  if success then
    (0%Z,
     {| world := world st; total_success := total_success st;
        total_failed := total_failed st;
        console := console st ++ [ImportedSuccessfully];
        sent := sent st |})
  else
    (1%Z,
     {| world := world st; total_success := total_success st;
        total_failed := total_failed st;
        console := console st ++ [ImportFailedCompletely];
        sent := sent st |}).

End Uploading.

End BatchImportHistory.

(** ** import_conversation.py *)

Module ImportConversation.

Inductive exn :=
| KeyError (key : string)
| TypeError
| AttributeError
| JSONDecodeError.

Inductive outcome (A : Type) :=
| Ret (a : A)
| Raise (e : exn).
Arguments Ret {A} a.
Arguments Raise {A} e.

(** What a call of [self.session.get] or [self.session.post] does: it
    raises a [requests.exceptions.RequestException], or it returns a
    response with a status code and a body that is JSON or not. *)
Inductive reply :=
| RequestException
| Response (status_code : Z) (json : option pyval).

Inductive request :=
| GetStatus
| PostImport (payload : gmap string pyval).

Inductive console_line :=
| Accessible
| ReturnedStatus (status_code : Z)
| CannotConnect
| LoadError
| Loaded (total kai_messages aletheia_messages : pyval)
| Prepared (entries : nat)
| Importing (entries : nat)
| ImportSuccessful
| ImportFailed (status_code : Z)
| NetworkError
| StatusCheck
| StatusCheckFailed (status_code : Z)
| CannotVerify
| VerificationFailed
| Completed.

Definition speaker_name (r : speaker) : str :=
  match r with
  | kai => lit "kai"
  | aletheia => lit "aletheia"
  | system => lit "system"
  end.

(** [len(v)], for the values that have a length. *)
Definition py_len (v : pyval) : option nat :=
  match v with
  | PStr s => Some (length s)
  | PList l => Some (length l)
  | PDict d => Some (size d)
  | _ => None
  end.

(** [str(n)] for an integer. *)
Definition str_of_int (n : Z) : str :=
  lit (DecimalString.NilZero.string_of_int (Z.to_int n)).

Definition import_message (msg : message) : pyval :=
  PDict
    (<["metadata" :=
        PDict
          (<["original_timestamp" := PIso (timestamp msg)]>
           (<["original_line_end" :=
               default PNone (metadata msg !! "line_end")]>
            (<["original_line_start" :=
                default PNone (metadata msg !! "line_start")]>
             (<["import_source" :=
                 PStr (lit "complete_history_migration")]>
              (metadata msg)))))]>
     (<["externalId" := PStr (msg_id msg)]>
      (<["timestamp" := PIso (timestamp msg)]>
       (<["content" := PStr (content msg)]>
        {["role" := PStr (speaker_name (role msg))]})))).

(** [prepare_import_payload]; [time_s] is [int(time.time())]. *)
Definition prepare_import_payload (time_s : Z)
    (conversation : conversation_data) : gmap string pyval :=
  let messages := cd_messages conversation in
  let import_messages :=
    flat_map
      (fun msg =>
         if bool_decide (role msg = system) then []
         else [import_message msg])
      messages in
  <["options" :=
      PDict
        (<["sessionId" := PStr (lit "historical_migration")]>
         (<["idempotencyKey" :=
             PStr (lit "historical_conversation_import_"
                   ++ str_of_int time_s)]>
          (<["dryRun" := PBool false]>
           {["platform" := PStr (lit "manual")]})))]>
  {["data" :=
      PDict (<["memories" := PList []]>
             {["messages" := PList import_messages]})]}.

Section Importing.

(** The remote system: a state and the effect of a request on it. *)
Context {World : Type}.
Context (http : World → request → World * reply).
(** Whether the decoding error of [response.json()] is a
    [RequestException], which depends on the version of [requests]. *)
Context (json_error_is_request_exception : bool).

Record state := State {
  world : World;
  console : list console_line;
  requests : list request
}.

(** Computations of the script: they change the state and return a
    value or raise. *)
Definition M (A : Type) : Type := state → state * outcome A.

Definition ret {A} (a : A) : M A := fun s => (s, Ret a).
Definition raise {A} (e : exn) : M A := fun s => (s, Raise e).
Definition bind {A B} (m : M A) (k : A → M B) : M B :=
  fun s =>
    match m s with
    | (s', Ret a) => k a s'
    | (s', Raise e) => (s', Raise e)
    end.

Notation "'let*' x ':=' m 'in' k" := (bind m (fun x => k))
  (at level 10, x pattern, m at level 100, k at level 200).

Definition print (l : console_line) : M unit :=
  fun s =>
    ({| world := world s; console := console s ++ [l];
        requests := requests s |}, Ret tt).

Definition send (r : request) : M reply :=
  fun s =>
    let '(w, a) := http (world s) r in
    ({| world := w; console := console s;
        requests := requests s ++ [r] |}, Ret a).

(** [d[key]] *)
Definition getitem (d : gmap string pyval) (key : string) : M pyval :=
  match d !! key with
  | Some v => ret v
  | None => raise (KeyError key)
  end.

(** [response.json()] inside a [try] that catches
    [RequestException] only: [handler] runs when the decoding error is
    one. *)
Definition json_or {A} (body : option pyval) (handler : M A)
    (k : pyval → M A) : M A :=
  match body with
  | Some v => k v
  | None =>
      if json_error_is_request_exception then handler
      else raise JSONDecodeError
  end.

(** [v.get(...)] needs a dict. *)
Definition as_dict (v : pyval) : M (gmap string pyval) :=
  match v with
  | PDict d => ret d
  | _ => raise AttributeError
  end.

Definition test_connectivity : M bool :=
  let* r := send GetStatus in
  match r with
  | Response status_code _ =>
      if bool_decide (status_code = 200%Z) then
        let* _ := print Accessible in ret true
      else
        let* _ := print (ReturnedStatus status_code) in ret false
  | RequestException => let* _ := print CannotConnect in ret false
  end.

Definition import_conversation (import_payload : gmap string pyval)
    : M bool :=
  let* entries := getitem import_payload "gnosisEntries" in
  match py_len entries with
  | None => raise TypeError
  | Some n =>
      let* _ := print (Importing n) in
      let* r := send (PostImport import_payload) in
      match r with
      | Response status_code body =>
          if bool_decide (status_code = 200%Z) then
            json_or body (let* _ := print NetworkError in ret false)
              (fun result =>
                 let* _ := as_dict result in
                 let* _ := print ImportSuccessful in ret true)
          else
            let* _ := print (ImportFailed status_code) in ret false
      | RequestException => let* _ := print NetworkError in ret false
      end
  end.

Definition verify_import : M bool :=
  let* r := send GetStatus in
  match r with
  | Response status_code body =>
      if bool_decide (status_code = 200%Z) then
        json_or body (let* _ := print CannotVerify in ret false)
          (fun status =>
             let* status := as_dict status in
             let* _ := print StatusCheck in
             match status !! "instanceMetrics" with
             | Some metrics => let* _ := as_dict metrics in ret true
             | None => ret true
             end)
      else
        let* _ := print (StatusCheckFailed status_code) in ret false
  | RequestException => let* _ := print CannotVerify in ret false
  end.

(** [run_import]; [file] is the document that
    [load_parsed_conversation] read, [None] when loading raised. *)
Definition run_import (time_s : Z) (file : option conversation_data)
    : M bool :=
  let* ok := test_connectivity in
  if negb ok then ret false
  else
    match file with
    | None => let* _ := print LoadError in ret false
    | Some conversation =>
        let* total := getitem (conversation_metadata conversation)
                  "total_messages" in
        let* kai_messages := getitem (conversation_metadata conversation)
                         "kai_messages" in
        let* aletheia_messages := getitem (conversation_metadata conversation)
                              "aletheia_messages" in
        let* _ := print (Loaded total kai_messages aletheia_messages) in
        let import_payload := prepare_import_payload time_s conversation in
        let* data := getitem import_payload "data" in
        let* data := as_dict data in
        let* msgs := getitem data "messages" in
        match py_len msgs with
        | None => raise TypeError
        | Some n =>
            let* _ := print (Prepared n) in
            let* ok := import_conversation import_payload in
            if negb ok then ret false
            else
              let* ok := verify_import in
              if negb ok then let* _ := print VerificationFailed in ret true
              else let* _ := print Completed in ret true
        end
    end.

(** [main] with its one argument: the exit status of [sys.exit], when
    [run_import] returns. *)
Definition main (time_s : Z) (file : option conversation_data)
    : M Z :=
  let* success := run_import time_s file in
  ret (if success then 0%Z else 1%Z).

End Importing.

End ImportConversation.

(** * Notions used in the statements *)

Module Notions.

Import ConversationParser.

(** [l[lo:hi]] for [lo] and [hi] within [0 .. len(l)]. *)
Definition slice {A} (l : list A) (lo hi : nat) : list A :=
  take (hi - lo) (drop lo l).

(** A run of the parser script starts from a fresh object. *)
Definition fresh_run (E : env) (path : str) (file : option (list str))
    : list message :=
  returned (parse_conversation E (init path) file).

(** The reference point of the timestamps of a run. *)
Definition base_time (E : env) : datetime :=
  (now E 0 - timedelta_days 30)%Z.

(** Every message of [msgs] carries the timestamp of its position. *)
Definition stamped (base : datetime) (msgs : list message) : Prop :=
  ∀ k m, msgs !! k = Some m →
         timestamp m = (base + timedelta_minutes (Z.of_nat k * 2))%Z.

(** A message without its parse-time record. *)
Definition forget_parse_time (m : message) : message :=
  {| msg_id := msg_id m; role := role m; content := content m;
     timestamp := timestamp m;
     metadata := delete "imported_at" (metadata m) |}.

(** A message without its parse-time record and its identifier. *)
Definition forget_id_and_parse_time (m : message) : message :=
  {| msg_id := []; role := role m; content := content m;
     timestamp := timestamp m;
     metadata := delete "imported_at" (metadata m) |}.

(** The scenario of the specification. *)
Definition scenario : list str :=
  [ lit "Hi, how are you?"; lit "I am doing well, thank you.";
    lit "Google Search"; lit "That's an interesting question." ].

(** A transcript with a blank line after the first turn. *)
Definition blank_inside : list str :=
  [ lit "Hi, how are you?"; lit ""; lit "I am doing well, thank you." ].

(** Two runs at the same pinned clock that draw different identifiers. *)
Definition first_run : env :=
  {| now := pinned 0%Z; uuid4 := fun n => lit "a" ++ [N.of_nat n] |}.
Definition second_run : env :=
  {| now := pinned 0%Z; uuid4 := fun n => lit "b" ++ [N.of_nat n] |}.

(** [t] is the quotient of [n] by [b] rounded up: the integer with
    [t - 1 < n / b ≤ t]. *)
Definition ceiling_of_quotient (n b t : nat) : Prop :=
  n ≤ t * b ∧ t * b < n + b.

(** The lists of messages of the requests that a run of [batch_import]
    submitted, in the order of submission. *)
Definition submitted_batches {World}
    (st : BatchImportHistory.run_state (World := World))
    : list (list BatchImportHistory.formatted_msg) :=
  (fun r => BatchImportHistory.data_messages r.2)
    <$> BatchImportHistory.sent st.

(** A submission that raised, or was answered by a status other than
    200. *)
Definition transport_failed (r : BatchImportHistory.reply) : Prop :=
  match r with
  | BatchImportHistory.TransportError => True
  | BatchImportHistory.Response status_code _ => status_code ≠ 200%Z
  end.

(** The keys of the metadata that the parser attaches to a message. *)
Definition parse_time_keys : gset string :=
  {["source"; "line_start"; "line_end"; "imported_at"]}.

(** Every message of [msgs] has the metadata keys of the parser. *)
Definition keyed (msgs : list message) : Prop :=
  Forall (fun m => dom (metadata m) = parse_time_keys) msgs.

(** Two states of the loop that agree up to identifiers and parse-time
    records. *)
Definition agree (st1 st2 : locals) : Prop :=
  current_message st1 = current_message st2
  ∧ current_speaker st1 = current_speaker st2
  ∧ forget_id_and_parse_time <$> messages st1
    = forget_id_and_parse_time <$> messages st2.

(** The line range recorded in [m] reproduces its content: cleaning the
    lines [line_start .. line_end] of the file, both 1-indexed and
    inclusive, gives the content. *)
Definition range_reproduces (lines : list str) (m : message) : Prop :=
  ∃ a b : nat,
    metadata m !! "line_start" = Some (PInt (Z.of_nat a + 1))
    ∧ metadata m !! "line_end" = Some (PInt (Z.of_nat b))
    ∧ a < b ≤ length lines
    ∧ content m = clean_message (join [10%N] (slice lines a b)).

(** When the loop is about to read line [i] (counted from 0), the buffer
    holds the lines just before it, and the messages emitted so far have
    ranges that reproduce them. *)
Definition buffer_is_recent (lines : list str) (i : nat) (st : locals)
    : Prop :=
  length (current_message st) ≤ i
  ∧ current_message st = slice lines (i - length (current_message st)) i
  ∧ Forall (range_reproduces lines) (messages st).

(** A sample message, and a parsed sequence of 120 messages. *)
Definition sample_message : message :=
  {| msg_id := lit "5f0c"; role := kai; content := lit "Hi";
     timestamp := 0%Z;
     metadata := {["source" := PStr (lit "historical_conversation")]} |}.
Definition sample_messages : list message := replicate 120 sample_message.

(** An endpoint that counts the requests it received: the first one fails
    in transport, every later one is answered with one successful
    import. *)
Definition flaky_post (n : nat) (_ : BatchImportHistory.batch_data)
    : nat * BatchImportHistory.reply :=
  (S n,
   if n =? 0 then BatchImportHistory.TransportError
   else BatchImportHistory.Response 200 (Some {["successful" := 1%Z]})).

(** A persisted document with the 120 sample messages. *)
Definition sample_document : conversation_data :=
  {| conversation_metadata := ∅; cd_messages := sample_messages |}.

(** The document that the parser saves for the 120 sample messages. *)
Definition sample_parsed_document : conversation_data :=
  ConversationParser.parsed_document
    {| ConversationParser.file_path := lit "history.txt";
       ConversationParser.self_messages := sample_messages;
       ConversationParser.self_current_speaker := None;
       ConversationParser.message_buffer := [] |} 0%Z.

(** A remote system that answers every request with status 200 and a
    body that is not JSON. *)
Definition always_ok (_ : unit) (_ : ImportConversation.request)
    : unit * ImportConversation.reply :=
  (tt, ImportConversation.Response 200 None).

(** The keys that [create_batch] adds to the metadata of a message. *)
Definition import_flags : list string :=
  ["historical_import"; "foundational_memory"; "batch_import";
   "original_order"].

End Notions.

(** ** import_aletheia_history.py *)

Module ImportAletheiaHistory.

Import BatchImportHistory.

(** The dict [formatted_msg] of [format_for_import]. *)
Definition format_message (msg : message) : formatted_msg :=
  {| f_role := role msg;
     f_content := content msg;
     f_timestamp := timestamp msg;
     externalId := msg_id msg;
     f_metadata :=
       <["foundational_memory" := PBool true]>
       (<["historical_import" := PBool true]> (metadata msg)) |}.

Definition format_for_import (conversation : conversation_data)
    : batch_data :=
  {| data_messages := format_message <$> cd_messages conversation;
     data_memories := [];
     options := {| platform := lit "manual"; dryRun := false;
                   sessionId := PNone |} |}.

(** Lines printed on the console. *)
Inductive console_line :=
| LoadError
| Loaded (total : pyval)
| KaiMessages (kai_messages : pyval)
| AletheiaMessages (aletheia_messages : pyval)
| SystemMessages (system_messages : pyval)
| Importing (entries : nat)
| ImportSuccessful
| ImportReport (import_id processed successful failed duplicates : pyval)
| ImportFailed (status_code : Z)
| RequestFailed
| UnexpectedError
| Imported
| Failed.

Section Importing.

(** The remote endpoint; [ImportConversation.RequestException] stands for
    any exception of [requests.post]. *)
Context {World : Type}.
Context (post : World → batch_data → World * ImportConversation.reply).
(** Whether the decoding error of [response.json()] is a
    [RequestException]. *)
Context (json_error_is_request_exception : bool).

Record state := State {
  world : World;
  console : list console_line;
  sent : list batch_data
}.

Definition say (lines : list console_line) (s : state) : state :=
  {| world := world s; console := console s ++ lines; sent := sent s |}.

(** The part of [import_to_consciousness] inside [try]: every exception
    is caught and gives [False]. *)
Definition request_import (import_payload : batch_data) (s : state)
    : state * bool :=
  let '(w, r) := post (world s) import_payload in
  let s := {| world := w; console := console s;
              sent := sent s ++ [import_payload] |} in
  match r with
  | ImportConversation.Response status_code body =>
      if bool_decide (status_code = 200%Z) then
        match body with
        | Some (PDict result) =>
            (say [ImportSuccessful;
                  ImportReport
                    (default (PStr (lit "N/A")) (result !! "importId"))
                    (default (PInt 0) (result !! "totalProcessed"))
                    (default (PInt 0) (result !! "successful"))
                    (default (PInt 0) (result !! "failed"))
                    (default (PInt 0) (result !! "duplicates"))] s,
             true)
        | Some _ => (say [ImportSuccessful; UnexpectedError] s, false)
        | None =>
            (say [if json_error_is_request_exception then RequestFailed
                  else UnexpectedError] s, false)
        end
      else (say [ImportFailed status_code] s, false)
  | ImportConversation.RequestException => (say [RequestFailed] s, false)
  end.

(** [import_to_consciousness]; [file] is the document that
    [load_conversation_data] read, [None] when loading raised. The counts
    of the document are printed one by one outside [try]: a missing one
    raises. *)
Definition import_to_consciousness (file : option conversation_data)
    (s : state) : state * ImportConversation.outcome bool :=
  match file with
  | None => (say [LoadError] s, ImportConversation.Ret false)
  | Some conversation =>
      let counts := conversation_metadata conversation in
      match counts !! "total_messages" with
      | None => (s, ImportConversation.Raise
                      (ImportConversation.KeyError "total_messages"))
      | Some total =>
      let s := say [Loaded total] s in
      match counts !! "kai_messages" with
      | None => (s, ImportConversation.Raise
                      (ImportConversation.KeyError "kai_messages"))
      | Some kai_messages =>
      let s := say [KaiMessages kai_messages] s in
      match counts !! "aletheia_messages" with
      | None => (s, ImportConversation.Raise
                      (ImportConversation.KeyError "aletheia_messages"))
      | Some aletheia_messages =>
      let s := say [AletheiaMessages aletheia_messages] s in
      match counts !! "system_messages" with
      | None => (s, ImportConversation.Raise
                      (ImportConversation.KeyError "system_messages"))
      | Some system_messages =>
          let import_payload := format_for_import conversation in
          let s :=
            say [SystemMessages system_messages;
                 Importing (length (data_messages import_payload))] s in
          let '(s, ok) := request_import import_payload s in
          (s, ImportConversation.Ret ok)
      end end end end
  end.

(** The script: the exit status, when [import_to_consciousness]
    returns. *)
Definition main (file : option conversation_data) (s : state)
    : state * ImportConversation.outcome Z :=
  match import_to_consciousness file s with
  | (s, ImportConversation.Ret true) =>
      (say [Imported] s, ImportConversation.Ret 0%Z)
  | (s, ImportConversation.Ret false) =>
      (say [Failed] s, ImportConversation.Ret 1%Z)
  | (s, ImportConversation.Raise e) => (s, ImportConversation.Raise e)
  end.

End Importing.

End ImportAletheiaHistory.

(** ** process_conversation.py *)

Module ProcessConversation.

Inductive chat_role := user | assistant.

(** One line of the output: [nd_timestamp] is the time whose ISO text,
    followed by [Z], the code stores. *)
Record ndjson_message := NdjsonMessage {
  nd_role : chat_role;
  nd_content : str;
  nd_timestamp : datetime;
  nd_id : str
}.

Definition role_name (r : chat_role) : str :=
  match r with
  | user => lit "user"
  | assistant => lit "assistant"
  end.

(** [datetime(2024, 7, 1, 12, 0, 0)], counted from 1970-01-01. *)
Definition base_time : datetime := (1719835200 * 1000000)%Z.

Section Hashing.

(** [hashlib.md5(s.encode()).hexdigest()] *)
Context (md5_hexdigest : str → str).

(** [[line.strip() for line in f.readlines() if line.strip()]] *)
Definition stripped_lines (raw : list str) : list str :=
  strip <$> filter (fun line => strip line ≠ []) raw.

(** The body of [for i, content in enumerate(lines)]: the messages it
    appends. *)
Definition message_of (i : nat) (content : str) : list ndjson_message :=
  if bool_decide (content = []) || bool_decide (content = lit "Google Search")
  then []
  else
    let role := if Nat.even i then user else assistant in
    [ {| nd_role := role;
         nd_content := content;
         nd_timestamp :=
           (base_time + timedelta_minutes (Z.of_nat i * 5))%Z;
         nd_id :=
           md5_hexdigest
             (role_name role ++ lit "_"
              ++ ImportConversation.str_of_int (Z.of_nat i) ++ lit "_"
              ++ take 50 content) |} ].

Fixpoint messages_from (i : nat) (lines : list str) : list ndjson_message :=
  match lines with
  | [] => []
  | content :: rest => message_of i content ++ messages_from (S i) rest
  end.

(** The messages that [process_conversation_file] writes, one per line,
    for the lines [raw] of the input file, and the number it returns. *)
Definition process_conversation_file (raw : list str)
    : list ndjson_message * nat :=
  let messages := messages_from 0 (stripped_lines raw) in
  (messages, length messages).

End Hashing.

End ProcessConversation.

(** ** setup_auth_and_import.py: the import payload and its submission *)

Module SetupAuthAndImport.

Import ImportConversation.

Definition import_message (msg : message) : pyval :=
  PDict
    (<["metadata" :=
        PDict
          (<["original_timestamp" := PIso (timestamp msg)]>
           (<["original_line_end" :=
               default PNone (metadata msg !! "line_end")]>
            (<["original_line_start" :=
                default PNone (metadata msg !! "line_start")]>
             (<["foundational_memory" := PBool true]>
              (<["import_source" :=
                  PStr (lit "complete_history_migration")]>
               (metadata msg))))))]>
     (<["externalId" := PStr (msg_id msg)]>
      (<["timestamp" := PIso (timestamp msg)]>
       (<["content" := PStr (content msg)]>
        {["role" := PStr (speaker_name (role msg))]})))).

(** [prepare_import_payload]; [time_s] is [int(time.time())]. *)
Definition prepare_import_payload (time_s : Z)
    (conversation : conversation_data) : gmap string pyval :=
  let messages := cd_messages conversation in
  let import_messages :=
    flat_map
      (fun msg =>
         if bool_decide (role msg = system) then []
         else [import_message msg])
      messages in
  <["options" :=
      PDict
        (<["sessionId" := PStr (lit "foundational_migration")]>
         (<["idempotencyKey" :=
             PStr (lit "foundational_memories_import_"
                   ++ str_of_int time_s)]>
          (<["dryRun" := PBool false]>
           {["platform" := PStr (lit "manual")]})))]>
  {["data" :=
      PDict (<["memories" := PList []]>
             {["messages" := PList import_messages]})]}.

Section Importing.

Context {World : Type} (http : World → request → World * reply).
Context (json_error_is_request_exception : bool).

Notation "'let*' x ':=' m 'in' k" := (bind m (fun x => k))
  (at level 10, x pattern, m at level 100, k at level 200).

(** [v[key]] for a value that has to be a dict. *)
Definition subscript (v : pyval) (key : string) : M (World := World) pyval :=
  match v with
  | PDict d => getitem d key
  | _ => raise TypeError
  end.

Definition import_conversation (import_payload : gmap string pyval)
    : M (World := World) bool :=
  let* data := getitem import_payload "data" in
  let* records := subscript data "messages" in
  match py_len records with
  | None => raise TypeError
  | Some n =>
      let* _ := print (Importing n) in
      let* r := send http (PostImport import_payload) in
      match r with
      | Response status_code body =>
          if bool_decide (status_code = 200%Z) then
            json_or json_error_is_request_exception body
              (let* _ := print NetworkError in ret false)
              (fun result =>
                 let* _ := as_dict result in
                 let* _ := print ImportSuccessful in ret true)
          else
            let* _ := print (ImportFailed status_code) in ret false
      | RequestException => let* _ := print NetworkError in ret false
      end
  end.

End Importing.

End SetupAuthAndImport.

(** * Further notions used in the statements *)

Module MoreNotions.

Import ConversationParser Notions.

(** Every whitespace character of [s] is a space that does not follow
    another whitespace character; [prev_ws] says that the character before
    [s] is whitespace. *)
Fixpoint single_spaced_after (prev_ws : bool) (s : str) : bool :=
  match s with
  | [] => true
  | c :: s' =>
      if isspace c
      then (c =? 32)%N && negb prev_ws && single_spaced_after true s'
      else single_spaced_after false s'
  end.

Definition single_spaced (s : str) : Prop :=
  single_spaced_after false s = true.

(** The line ranges recorded in [msgs] lie after line [lo] and up to line
    [hi], none is empty, and each starts after the one before it ends. *)
Fixpoint ranges_between (lo hi : Z) (msgs : list message) : Prop :=
  match msgs with
  | [] => (lo ≤ hi)%Z
  | m :: rest =>
      ∃ ls le : Z,
        metadata m !! "line_start" = Some (PInt ls)
        ∧ metadata m !! "line_end" = Some (PInt le)
        ∧ (lo < ls ≤ le)%Z
        ∧ ranges_between le hi rest
  end.

(** [blank line] is the test [not line.strip()]. *)
Definition blank (line : str) : Prop := strip line = [].

(** In a run from a fresh object the identifiers and the parse-time
    records are the draws and the clock readings in order. *)
Definition drawn_in_order (E : env) (st : locals) : Prop :=
  uuid_calls st = length (messages st)
  ∧ now_calls st = S (length (messages st))
  ∧ ∀ k m, messages st !! k = Some m →
           msg_id m = uuid4 E k
           ∧ metadata m !! "imported_at" = Some (PIso (now E (S k))).

(** A reply whose counts, if it reports any, add up to [size]: a failure
    of the transport, a status other than 200, a body that cannot be
    read, or counts of successful and failed imports with sum [size]. *)
Definition accounts_for (size : nat) (r : BatchImportHistory.reply) : Prop :=
  match r with
  | BatchImportHistory.Response status_code (Some result) =>
      status_code = 200%Z →
      (default 0 (result !! "successful") + default 0 (result !! "failed")
       = Z.of_nat size)%Z
  | _ => True
  end.

(** [payload['data']['messages']], where the payload has it. *)
Definition payload_messages (payload : gmap string pyval) : list pyval :=
  match payload !! "data" with
  | Some (PDict data) =>
      match data !! "messages" with
      | Some (PList records) => records
      | _ => []
      end
  | _ => []
  end.

(** [record[key]], where [record] is a dict that has the key. *)
Definition record_field (key : string) (record : pyval) : option pyval :=
  match record with
  | PDict d => d !! key
  | _ => None
  end.

(** A computation of [import_conversation.py] that sends no request. *)
Definition quiet {World A} (m : ImportConversation.M (World := World) A)
    : Prop :=
  ∀ s, ImportConversation.requests (m s).1 = ImportConversation.requests s.

(** A record of [format_for_import] with the two entries that
    [create_batch] adds for position [i]. *)
Definition with_batch_flags (i : nat)
    (f : BatchImportHistory.formatted_msg)
    : BatchImportHistory.formatted_msg :=
  {| BatchImportHistory.f_role := BatchImportHistory.f_role f;
     BatchImportHistory.f_content := BatchImportHistory.f_content f;
     BatchImportHistory.f_timestamp := BatchImportHistory.f_timestamp f;
     BatchImportHistory.externalId := BatchImportHistory.externalId f;
     BatchImportHistory.f_metadata :=
       <["original_order" := PInt (Z.of_nat i)]>
       (<["batch_import" := PBool true]>
        (BatchImportHistory.f_metadata f)) |}.

(** The four counts that [import_to_consciousness] prints. *)
Definition has_counts (conversation : conversation_data) : Prop :=
  is_Some (conversation_metadata conversation !! "total_messages")
  ∧ is_Some (conversation_metadata conversation !! "kai_messages")
  ∧ is_Some (conversation_metadata conversation !! "aletheia_messages")
  ∧ is_Some (conversation_metadata conversation !! "system_messages").

(** The number of lines that are not blank. *)
Definition non_blank_lines (lines : list str) : nat :=
  length (filter (fun line => strip line ≠ []) lines).

(** Whether the buffer of the loop holds a line. *)
Definition pending (st : locals) : nat :=
  match current_message st with
  | [] => 0
  | _ :: _ => 1
  end.

(** Sample inputs: a file of two blank lines, an endpoint that reports
    every message of a batch as imported, one that is never reached, a
    remote system that answers every request with an empty JSON object,
    and a file for [process_conversation.py]. *)
Definition blank_file : option (list str) := Some [lit ""; lit "   "].

Definition thorough_post (n : nat) (batch : BatchImportHistory.batch_data)
    : nat * BatchImportHistory.reply :=
  (S n,
   BatchImportHistory.Response 200
     (Some {["successful" :=
               Z.of_nat (length (BatchImportHistory.data_messages batch))]})).

Definition dead_post (n : nat) (_ : BatchImportHistory.batch_data)
    : nat * BatchImportHistory.reply :=
  (n, BatchImportHistory.TransportError).

Definition always_json (_ : unit) (_ : ImportConversation.request)
    : unit * ImportConversation.reply :=
  (tt, ImportConversation.Response 200 (Some (PDict ∅))).

Definition accepting_endpoint (_ : unit)
    (_ : BatchImportHistory.batch_data)
    : unit * ImportConversation.reply :=
  (tt, ImportConversation.Response 200 (Some (PDict ∅))).

Definition short_log : list str :=
  [lit "Hi"; lit ""; lit "Google Search"; lit " Fine. "].

End MoreNotions.

(** * Properties of the parser *)

Section ParserFacts.

Import ConversationParser Notions.

Implicit Types (E : env) (self : parser) (st : locals) (base : datetime).

Lemma stamped_nil base : stamped base [].
Proof. intros k m Hk. by rewrite lookup_nil in Hk. Qed.

Lemma append_message_stamped E base text ls le spk st :
  stamped base (messages st) →
  stamped base (messages (append_message E base text ls le spk st)).
Proof.
  intros Hst k m. cbn [append_message messages].
  destruct (decide (k < length (messages st))) as [Hlt | Hge].
  - rewrite lookup_app_l by done. apply Hst.
  - rewrite lookup_app_r by lia.
    destruct (k - length (messages st)) as [| d] eqn:Hd; [| done].
    cbn. intros [= <-]. cbn. do 3 f_equal. lia.
Qed.

Lemma flush_stamped E base ls le st :
  stamped base (messages st) →
  stamped base (messages (flush E base ls le st)).
Proof.
  intros Hst. unfold flush.
  destruct (current_message st); [done |].
  destruct (current_speaker st); [| done].
  case_bool_decide; [done |].
  by apply append_message_stamped.
Qed.

Lemma body_stamped E self base i line st :
  stamped base (messages st) →
  stamped base (messages (body E self base i line st)).
Proof.
  intros Hst. unfold body.
  case_bool_decide; [done |].
  destruct (detect_speaker_change self line (i + 1)); [| done].
  case_bool_decide; [| done].
  cbn [messages]. by apply flush_stamped.
Qed.

Lemma loop_stamped E self base lines : ∀ i st,
  stamped base (messages st) →
  stamped base (messages (loop E self base i lines st)).
Proof.
  induction lines as [| line rest IH]; intros i st Hst; [done |].
  cbn [loop]. by apply IH, body_stamped.
Qed.

Lemma run_stamped E self lines :
  stamped (base_time E) (self_messages self) →
  stamped (base_time E) (messages (run E self lines)).
Proof.
  intros Hst. unfold run. apply flush_stamped, loop_stamped. exact Hst.
Qed.

Lemma fresh_run_stamped E path file :
  stamped (base_time E) (fresh_run E path file).
Proof.
  unfold fresh_run, parse_conversation.
  destruct (read_file file) as [[| l ls] report]; cbn [returned].
  - apply stamped_nil.
  - apply run_stamped, stamped_nil.
Qed.

Lemma timedelta_minutes_mono a b :
  (a < b)%Z → (timedelta_minutes a < timedelta_minutes b)%Z.
Proof. unfold timedelta_minutes. lia. Qed.

(** C5: in a run of the parser the k-th emitted message has the timestamp
    [base_time + k * 2 minutes], where [base_time] is fixed by the first
    clock reading of the run; hence a message emitted later has a strictly
    greater timestamp. *)
Theorem timestamps_follow_emission_order E path file :
  (∀ k m, fresh_run E path file !! k = Some m →
          timestamp m
          = (base_time E + timedelta_minutes (Z.of_nat k * 2))%Z)
  ∧ (∀ i j mi mj,
       fresh_run E path file !! i = Some mi →
       fresh_run E path file !! j = Some mj →
       i < j → (timestamp mi < timestamp mj)%Z).
Proof.
  pose proof (fresh_run_stamped E path file) as Hst.
  split; [exact Hst |].
  intros i j mi mj Hi Hj Hij.
  rewrite (Hst _ _ Hi), (Hst _ _ Hj).
  apply Z.add_lt_mono_l, timedelta_minutes_mono. lia.
Qed.

(** The first two messages of the scenario. *)
Lemma timestamps_follow_emission_order_witness :
  ∃ mi mj,
    fresh_run first_run [] (Some scenario) !! 0 = Some mi
    ∧ fresh_run first_run [] (Some scenario) !! 1 = Some mj
    ∧ (timestamp mi < timestamp mj)%Z.
Proof.
  destruct (fresh_run first_run [] (Some scenario) !! 0) as [mi |] eqn:Hi;
    [| vm_compute in Hi; discriminate].
  destruct (fresh_run first_run [] (Some scenario) !! 1) as [mj |] eqn:Hj;
    [| vm_compute in Hj; discriminate].
  exists mi, mj. split; [reflexivity |]. split; [reflexivity |].
  apply (proj2 (timestamps_follow_emission_order first_run []
                  (Some scenario)) 0 1 mi mj Hi Hj).
  lia.
Defined.

(** ** Metadata keys *)

Lemma append_message_keyed E base text ls le spk st :
  keyed (messages st) →
  keyed (messages (append_message E base text ls le spk st)).
Proof.
  intros H. cbn [append_message messages]. apply Forall_app. split; [done |].
  apply Forall_singleton. cbn [metadata].
  rewrite !dom_insert_L, dom_singleton_L. unfold parse_time_keys.
  set_solver.
Qed.

Lemma flush_keyed E base ls le st :
  keyed (messages st) → keyed (messages (flush E base ls le st)).
Proof.
  intros H. unfold flush.
  destruct (current_message st); [done |].
  destruct (current_speaker st); [| done].
  case_bool_decide; [done |].
  by apply append_message_keyed.
Qed.

Lemma body_keyed E self base i line st :
  keyed (messages st) → keyed (messages (body E self base i line st)).
Proof.
  intros H. unfold body.
  case_bool_decide; [done |].
  destruct (detect_speaker_change self line (i + 1)); [| done].
  case_bool_decide; [| done].
  cbn [messages]. by apply flush_keyed.
Qed.

Lemma loop_keyed E self base lines : ∀ i st,
  keyed (messages st) → keyed (messages (loop E self base i lines st)).
Proof.
  induction lines as [| line rest IH]; intros i st H; [done |].
  cbn [loop]. by apply IH, body_keyed.
Qed.

Lemma fresh_run_keyed E path file : keyed (fresh_run E path file).
Proof.
  unfold fresh_run, parse_conversation.
  destruct (read_file file) as [[| l ls] report]; cbn [returned].
  - apply Forall_nil_2.
  - unfold run. apply flush_keyed, loop_keyed. apply Forall_nil_2.
Qed.

(** ** Reproducibility *)

Lemma agree_length st1 st2 :
  agree st1 st2 → length (messages st1) = length (messages st2).
Proof.
  intros (_ & _ & H). apply (f_equal length) in H.
  by rewrite !length_fmap in H.
Qed.

Lemma append_message_agree E1 E2 base text ls le spk st1 st2 :
  agree st1 st2 →
  agree (append_message E1 base text ls le spk st1)
        (append_message E2 base text ls le spk st2).
Proof.
  intros H. pose proof (agree_length _ _ H) as Hlen.
  destruct H as (Hm & Hs & Hmsgs).
  repeat split; cbn [append_message current_message current_speaker messages];
    [done | done |].
  rewrite !fmap_app, Hmsgs. f_equal. cbn.
  unfold forget_id_and_parse_time; cbn. rewrite Hlen.
  by rewrite !delete_insert_eq.
Qed.

Lemma flush_agree E1 E2 base ls le st1 st2 :
  agree st1 st2 →
  agree (flush E1 base ls le st1) (flush E2 base ls le st2).
Proof.
  intros H. unfold flush.
  pose proof H as (Hm & Hs & _). rewrite <- Hm, <- Hs.
  destruct (current_message st1); [exact H |].
  destruct (current_speaker st1); [| exact H].
  case_bool_decide; [exact H |].
  apply append_message_agree, H.
Qed.

Lemma body_agree E1 E2 self base i line st1 st2 :
  agree st1 st2 →
  agree (body E1 self base i line st1) (body E2 self base i line st2).
Proof.
  intros H. unfold body.
  case_bool_decide; [done |].
  pose proof H as (Hm & Hs & Hmsgs).
  destruct (detect_speaker_change self line (i + 1)) as [d |].
  - rewrite <- Hs, <- Hm.
    case_bool_decide.
    + pose proof (flush_agree E1 E2 base
                    (Z.of_nat i + 1 - Z.of_nat (length (current_message st1)))
                    (Z.of_nat i) st1 st2 H) as (_ & _ & Hf).
      split; [done | split; [done | exact Hf]].
    + split; [done | split; [done | exact Hmsgs]].
  - split; [cbn; by rewrite Hm | split; [done | exact Hmsgs]].
Qed.

Lemma loop_agree E1 E2 self base lines : ∀ i st1 st2,
  agree st1 st2 →
  agree (loop E1 self base i lines st1) (loop E2 self base i lines st2).
Proof.
  induction lines as [| line rest IH]; intros i st1 st2 H; [done |].
  cbn [loop]. by apply IH, body_agree.
Qed.

Lemma run_agree E1 E2 self lines :
  now E1 0 = now E2 0 →
  forget_id_and_parse_time <$> messages (run E1 self lines)
  = forget_id_and_parse_time <$> messages (run E2 self lines).
Proof.
  intros Hnow. unfold run. rewrite Hnow.
  set (st0 := {| messages := self_messages self; current_message := [];
                 current_speaker := None; now_calls := 1;
                 uuid_calls := 0 |}).
  assert (agree st0 st0) as H0 by done.
  pose proof (loop_agree E1 E2 self (now E2 0 - timedelta_days 30)%Z
                lines 0 st0 st0 H0) as H.
  pose proof H as (Hm & _ & _). rewrite <- Hm.
  by apply flush_agree.
Qed.

(** C2, as the code has it: two runs on the same lines at the same pinned
    clock emit message sequences that are equal in every field other than
    the identifier and the parse-time record [imported_at]. *)
Theorem reruns_agree_up_to_id_and_parse_time
    (t : datetime) (ids1 ids2 : nat → str) path file :
  forget_id_and_parse_time
    <$> fresh_run {| now := pinned t; uuid4 := ids1 |} path file
  = forget_id_and_parse_time
      <$> fresh_run {| now := pinned t; uuid4 := ids2 |} path file.
Proof.
  unfold fresh_run, parse_conversation.
  destruct (read_file file) as [[| l ls] report]; cbn [returned]; [done |].
  by apply run_agree.
Qed.

(** C2, as stated, fails: with the clock pinned, two runs on the same line
    still differ outside the parse-time record, in the identifier. *)
Lemma reruns_differ_in_id :
  forget_parse_time <$> fresh_run first_run [] (Some [lit "Hi"])
  ≠ forget_parse_time <$> fresh_run second_run [] (Some [lit "Hi"]).
Proof.
  intros H. apply (f_equal (fmap msg_id)) in H.
  vm_compute in H. discriminate H.
Qed.

(** ** The scenario *)

(** C3, as the code has it: on the four lines of the scenario the parser
    emits four messages, of roles kai, aletheia, system, aletheia. *)
Theorem scenario_roles E path :
  role <$> fresh_run E path (Some scenario)
  = [kai; aletheia; system; aletheia].
Proof. vm_compute. reflexivity. Qed.

(** C3, as stated, fails: the number of emitted messages is not 3. *)
Lemma scenario_not_three_messages :
  length (fresh_run first_run [] (Some scenario)) ≠ 3.
Proof. vm_compute. discriminate. Qed.

(** The object keeps the messages of earlier calls: a second call on the
    same object returns them again, followed by the new ones. *)
Lemma second_call_accumulates E path :
  length (returned
            (parse_conversation E
               (self_after (parse_conversation E (init path) (Some scenario)))
               (Some scenario)))
  = 8.
Proof. vm_compute. reflexivity. Qed.

(** ** Line ranges *)

Lemma slice_snoc {A} (l : list A) (a b : nat) (x : A) :
  a ≤ b → l !! b = Some x → slice l a b ++ [x] = slice l a (S b).
Proof.
  intros Hab Hx. unfold slice.
  replace (S b - a) with (S (b - a)) by lia.
  symmetry. apply take_S_r. rewrite lookup_drop.
  by replace (a + (b - a)) with b by lia.
Qed.

Lemma slice_singleton {A} (l : list A) (i : nat) (x : A) :
  l !! i = Some x → slice l i (S i) = [x].
Proof.
  intros Hx. unfold slice. replace (S i - i) with 1 by lia.
  by rewrite (drop_S _ _ _ Hx).
Qed.

Lemma flush_ranged E base lines i st :
  buffer_is_recent lines i st →
  i ≤ length lines →
  Forall (range_reproduces lines)
    (messages
       (flush E base
          (Z.of_nat i + 1 - Z.of_nat (length (current_message st)))%Z
          (Z.of_nat i) st)).
Proof.
  intros (Hlen & Hbuf & Hmsgs) Hi. unfold flush.
  destruct (current_message st) as [| l0 ls] eqn:Hcm; [done |].
  destruct (current_speaker st); [| done].
  case_bool_decide; [done |].
  cbn [append_message messages]. apply Forall_app. split; [done |].
  apply Forall_singleton.
  exists (i - length (l0 :: ls)), i. cbn [metadata content].
  split; [| split; [| split]].
  - rewrite lookup_insert_ne, lookup_insert_ne, lookup_insert_eq by done.
    do 2 f_equal. lia.
  - by rewrite lookup_insert_ne, lookup_insert_eq.
  - cbn [length] in *. lia.
  - by rewrite <- Hbuf.
Qed.

Lemma body_ranged E self base lines i line st :
  lines !! i = Some line →
  strip line ≠ [] →
  buffer_is_recent lines i st →
  buffer_is_recent lines (S i) (body E self base i line st).
Proof.
  intros Hline Hnonblank Hinv.
  pose proof (lookup_lt_Some _ _ _ Hline) as Hi.
  pose proof Hinv as (Hlen & Hbuf & Hmsgs).
  assert (buffer_is_recent lines (S i)
            {| messages := messages st;
               current_message := current_message st ++ [line];
               current_speaker := current_speaker st;
               now_calls := now_calls st;
               uuid_calls := uuid_calls st |}) as Happend.
  { split; [| split]; cbn [current_message messages]; [| | done].
    - rewrite length_app. cbn. lia.
    - rewrite length_app. cbn [length].
      replace (S i - (length (current_message st) + 1))
        with (i - length (current_message st)) by lia.
      rewrite Hbuf at 1. apply slice_snoc; [lia | done]. }
  unfold body. rewrite bool_decide_false by done.
  destruct (detect_speaker_change self line (i + 1)); [| exact Happend].
  case_bool_decide; [| exact Happend].
  split; [| split]; cbn [current_message messages length].
  - lia.
  - replace (S i - 1) with i by lia. symmetry. by apply slice_singleton.
  - apply flush_ranged; [done | lia].
Qed.

Lemma loop_ranged E self base lines : ∀ rest i st,
  drop i lines = rest →
  i ≤ length lines →
  Forall (fun line => strip line ≠ []) rest →
  buffer_is_recent lines i st →
  buffer_is_recent lines (length lines) (loop E self base i rest st).
Proof.
  induction rest as [| line rest IH]; intros i st Hdrop Hi Hnonblank Hinv.
  - cbn [loop]. apply drop_nil_inv in Hdrop.
    by replace (length lines) with i by lia.
  - assert (lines !! i = Some line) as Hline.
    { rewrite <- (Nat.add_0_r i), <- lookup_drop, Hdrop. done. }
    apply Forall_cons in Hnonblank as [Hline_nonblank Hrest].
    cbn [loop]. apply IH.
    + rewrite (drop_S _ _ _ Hline) in Hdrop. by injection Hdrop.
    + apply lookup_lt_Some in Hline. lia.
    + done.
    + by apply body_ranged.
Qed.

Lemma run_ranged E self lines :
  Forall (range_reproduces lines) (self_messages self) →
  Forall (fun line => strip line ≠ []) lines →
  Forall (range_reproduces lines) (messages (run E self lines)).
Proof.
  intros Hself Hnonblank. unfold run.
  set (base := (now E 0 - timedelta_days 30)%Z).
  set (st0 := {| messages := self_messages self;
                 current_message := []; current_speaker := None;
                 now_calls := 1; uuid_calls := 0 |}).
  assert (buffer_is_recent lines 0 st0) as H0.
  { split; [| split]; cbn; [lia | done | done]. }
  pose proof (loop_ranged E self base lines lines 0 st0
                (drop_0 _) ltac:(lia) Hnonblank H0) as Hend.
  pose proof (flush_ranged E base lines (length lines) _ Hend ltac:(lia))
    as Hflush.
  set (st := loop E self base 0 lines st0) in *.
  replace (Z.of_nat (length lines) - Z.of_nat (length (current_message st))
           + 1)%Z
    with (Z.of_nat (length lines) + 1
          - Z.of_nat (length (current_message st)))%Z by lia.
  exact Hflush.
Qed.

(** Where no line of the file is blank, the line range recorded for every
    message of a run reproduces the content of the message. *)
Lemma line_ranges_reproduce_content_without_blank_lines E path raw :
  Forall (fun line => strip line ≠ []) (read_file (Some raw)).1 →
  Forall (range_reproduces (read_file (Some raw)).1)
    (fresh_run E path (Some raw)).
Proof.
  unfold fresh_run, parse_conversation.
  destruct (read_file (Some raw)) as [[| l ls] report]; cbn [fst returned].
  - intros _. apply Forall_nil_2.
  - apply run_ranged. apply Forall_nil_2.
Qed.

(** C4 at a transcript with a blank line: the first message is the text of
    line 1, and the range recorded for it is the blank line 2 alone, which
    does not reproduce the content. *)
Theorem blank_line_shifts_line_range E path :
  content <$> fresh_run E path (Some blank_inside) !! 0 = blank_inside !! 0
  ∧ blank_inside !! 1 = Some []
  ∧ (fresh_run E path (Some blank_inside) !! 0
     ≫= fun m => metadata m !! "line_start") = Some (PInt 2)
  ∧ (fresh_run E path (Some blank_inside) !! 0
     ≫= fun m => metadata m !! "line_end") = Some (PInt 2)
  ∧ ¬ Forall (range_reproduces blank_inside)
        (fresh_run E path (Some blank_inside)).
Proof.
  assert (content <$> fresh_run E path (Some blank_inside) !! 0
          = blank_inside !! 0) as Hcontent by (vm_compute; reflexivity).
  assert ((fresh_run E path (Some blank_inside) !! 0
           ≫= fun m => metadata m !! "line_start") = Some (PInt 2))
    as Hstart by (vm_compute; reflexivity).
  assert ((fresh_run E path (Some blank_inside) !! 0
           ≫= fun m => metadata m !! "line_end") = Some (PInt 2))
    as Hend by (vm_compute; reflexivity).
  do 4 (split; [done |]).
  intros Hall.
  destruct (fresh_run E path (Some blank_inside)) as [| m ms];
    [discriminate Hcontent |].
  cbn in Hcontent, Hstart, Hend.
  apply Forall_cons in Hall as [(a & b & Ha & Hb & _ & Hm) _].
  rewrite Ha in Hstart. rewrite Hb in Hend.
  assert (a = 1) as -> by (injection Hstart; lia).
  assert (b = 2) as -> by (injection Hend; lia).
  rewrite Hm in Hcontent. vm_compute in Hcontent. discriminate Hcontent.
Qed.

(** ** Missing input *)

(** C9 at a file that cannot be read: the parser reports it and returns
    no message, no file is written, and the exit status is 0. *)
Theorem missing_file_exits_with_status_zero E writable prog path :
  fresh_run E path None = []
  ∧ ConversationParser.main E (fun _ => None) writable [prog; path]
    = (0%Z, {| written := [];
               stdout := [ErrorReadingFile; NoMessagesParsed] |}).
Proof. split; reflexivity. Qed.

End ParserFacts.

(** * Properties of the batch uploader *)

Section UploaderFacts.

Import BatchImportHistory Notions.

Context {World : Type} (post : World → batch_data → World * reply).

Implicit Types (messages : list message) (st : run_state (World := World)).

(** ** [create_batch] *)

Lemma omap_format_seq messages n : ∀ start,
  start + n ≤ length messages →
  omap (fun i => (fun msg => format_message msg i) <$> messages !! i)
       (seq start n)
  = imap (fun j msg => format_message msg (start + j))
         (take n (drop start messages)).
Proof.
  induction n as [| n IH]; intros start Hle; [done |].
  destruct (lookup_lt_is_Some_2 messages start ltac:(lia)) as [msg Hmsg].
  rewrite (drop_S _ _ _ Hmsg). cbn [seq omap list_omap take].
  rewrite Hmsg, imap_cons. cbn. rewrite Nat.add_0_r. f_equal.
  rewrite IH by lia. apply imap_ext. intros j x _. cbn. f_equal. lia.
Qed.

Lemma create_batch_slice messages start b :
  data_messages (create_batch messages start b)
  = imap (fun j msg => format_message msg (start + j))
         (slice messages start (min (start + b) (length messages))).
Proof.
  unfold create_batch, slice. cbn [data_messages].
  destruct (decide (start ≤ length messages)) as [Hle | Hgt].
  - apply omap_format_seq. lia.
  - replace (min (start + b) (length messages) - start) with 0 by lia.
    done.
Qed.

Lemma slice_take_drop messages start b :
  slice messages start (min (start + b) (length messages))
  = take b (drop start messages).
Proof.
  unfold slice.
  destruct (decide (start + b ≤ length messages)) as [Hle | Hgt].
  - f_equal. lia.
  - rewrite Nat.min_r by lia.
    rewrite !take_ge; [done | |]; rewrite length_drop; lia.
Qed.

Lemma create_batch_lookup messages start b j :
  j < b →
  data_messages (create_batch messages start b) !! j
  = (fun msg => format_message msg (start + j)) <$> messages !! (start + j).
Proof.
  intros Hj. rewrite create_batch_slice, slice_take_drop.
  rewrite list_lookup_imap, lookup_take_lt, lookup_drop by done. done.
Qed.

Lemma create_batch_length messages start b :
  length (data_messages (create_batch messages start b))
  = min (start + b) (length messages) - start.
Proof.
  rewrite create_batch_slice, length_imap. unfold slice.
  rewrite length_take, length_drop. lia.
Qed.

(** ** The number of batches *)

Lemma total_batches_ceiling n b :
  1 ≤ b → ceiling_of_quotient n b (total_batches_of n b).
Proof.
  intros Hb. unfold ceiling_of_quotient, total_batches_of.
  pose proof (Nat.div_mod_eq (n + b - 1) b) as Hdm.
  pose proof (Nat.mod_upper_bound (n + b - 1) b ltac:(lia)) as Hmod.
  nia.
Qed.

Lemma ceiling_of_quotient_unique n b t1 t2 :
  ceiling_of_quotient n b t1 → ceiling_of_quotient n b t2 → t1 = t2.
Proof. unfold ceiling_of_quotient. nia. Qed.

(** ** The loop *)

Lemma upload_snoc messages b nums k st :
  upload post messages b (nums ++ [k]) st
  = step post messages b (total_batches_of (length messages) b)
      (upload post messages b nums st) k.
Proof. unfold upload. by rewrite fold_left_app. Qed.

Lemma upload_app messages b nums1 nums2 st :
  upload post messages b (nums1 ++ nums2) st
  = upload post messages b nums2 (upload post messages b nums1 st).
Proof. unfold upload. by rewrite fold_left_app. Qed.

Lemma step_sent messages b T st k :
  sent (step post messages b T st k)
  = sent st ++ [(k, create_batch messages ((k - 1) * b) b)].
Proof.
  unfold step.
  destruct (import_batch post (world st) _ k T) as [[w' pr] [[ok s] f]].
  done.
Qed.

Lemma upload_sent messages b nums : ∀ st,
  sent (upload post messages b nums st)
  = sent st
    ++ ((fun k => (k, create_batch messages ((k - 1) * b) b)) <$> nums).
Proof.
  induction nums as [| k nums IH] using rev_ind; intros st.
  - cbn. by rewrite app_nil_r.
  - rewrite upload_snoc, step_sent, IH, fmap_app, app_assoc. done.
Qed.

Lemma seq_split_at k T :
  S k ≤ T → seq 1 T = (seq 1 k ++ [S k]) ++ seq (S (S k)) (T - S k).
Proof.
  intros Hk. replace T with (S k + (T - S k)) at 1 by lia.
  by rewrite seq_app, seq_S.
Qed.

Lemma upload_prefix messages b k T st :
  S k ≤ T →
  upload post messages b (seq 1 T) st
  = upload post messages b (seq (S (S k)) (T - S k))
      (step post messages b (total_batches_of (length messages) b)
         (upload post messages b (seq 1 k) st) (S k)).
Proof.
  intros Hk. by rewrite (seq_split_at k T Hk), upload_app, upload_snoc.
Qed.

Lemma submitted_batches_upload messages b T w :
  submitted_batches (upload post messages b (seq 1 T) (start_state w))
  = (fun k => data_messages (create_batch messages ((k - 1) * b) b))
      <$> seq 1 T.
Proof.
  unfold submitted_batches. rewrite upload_sent. cbn [start_state sent].
  rewrite app_nil_l, <- list_fmap_compose. done.
Qed.

Lemma concat_batches messages b k :
  k * b < length messages + b →
  concat ((fun k => data_messages (create_batch messages ((k - 1) * b) b))
            <$> seq 1 k)
  = imap (fun i msg => format_message msg i) (take (k * b) messages).
Proof.
  induction k as [| k IH]; intros Hk; [done |].
  rewrite seq_S, fmap_app, concat_app, IH by lia. cbn [fmap list_fmap concat].
  rewrite app_nil_r, create_batch_slice, slice_take_drop.
  replace (1 + k - 1) with k by lia.
  replace (S k * b) with (k * b + b) by lia.
  rewrite <- take_take_drop, imap_app. f_equal.
  rewrite length_take_le by lia. done.
Qed.

(** C1: for a batch size [b ≥ 1] and [n] messages, the uploader submits
    the quotient of [n] by [b], rounded up, batches; batch [k] (counted
    from 1) is the reshaping of the messages at offsets [(k-1)*b] to
    [min(k*b, n) - 1]; every batch but the last has [b] messages; and the
    batches, concatenated in order, are the reshaped message sequence. *)
Theorem batches_partition_messages (b : nat) (w : World)
    (data : conversation_data) :
  1 ≤ b →
  let messages := cd_messages data in
  let n := length messages in
  let batches :=
    submitted_batches (batch_import_sized post b w (Some data)).2 in
  ceiling_of_quotient n b (length batches)
  ∧ (∀ k batch,
       1 ≤ k → batches !! (k - 1) = Some batch →
       batch
       = imap (fun j msg => format_message msg ((k - 1) * b + j))
           (slice messages ((k - 1) * b) (min (k * b) n)))
  ∧ (∀ k batch,
       1 ≤ k < length batches → batches !! (k - 1) = Some batch →
       length batch = b)
  ∧ concat batches = imap (fun i msg => format_message msg i) messages.
Proof.
  intros Hb messages n batches.
  pose proof (total_batches_ceiling n b Hb) as Hceil.
  assert (batches
          = (fun k => data_messages (create_batch messages ((k - 1) * b) b))
              <$> seq 1 (total_batches_of n b)) as Hbatches.
  { subst batches. unfold batch_import_sized, submitted_batches.
    cbn [snd sent]. apply submitted_batches_upload. }
  assert (length batches = total_batches_of n b) as Hlen.
  { by rewrite Hbatches, length_fmap, length_seq. }
  assert (∀ k batch,
            1 ≤ k → batches !! (k - 1) = Some batch →
            k ≤ total_batches_of n b
            ∧ batch = data_messages (create_batch messages ((k - 1) * b) b))
    as Hlookup.
  { intros k batch Hk. rewrite Hbatches, list_lookup_fmap.
    destruct (seq 1 (total_batches_of n b) !! (k - 1)) as [k' |] eqn:Hseq;
      [| done].
    apply lookup_seq in Hseq as [-> Hlt].
    replace (1 + (k - 1)) with k by lia.
    cbn. intros [= <-]. split; [lia | done]. }
  rewrite Hlen. split; [exact Hceil |]. destruct Hceil as [Hge Hlt].
  split; [| split].
  - intros k batch Hk Hb'. destruct (Hlookup k batch Hk Hb') as [_ ->].
    rewrite create_batch_slice.
    destruct k as [| k']; [lia |].
    replace (S k' - 1) with k' by lia.
    replace (S k' * b) with (k' * b + b) by lia. done.
  - intros k batch [Hk Hkt] Hb'.
    destruct (Hlookup k batch Hk Hb') as [_ ->].
    rewrite create_batch_length. fold n. nia.
  - rewrite Hbatches, concat_batches by (fold n; lia).
    rewrite take_ge; [done | fold n; lia].
Qed.

(** ** Reshaping *)

Lemma format_message_keeps msg i key v :
  key ∉ import_flags →
  metadata msg !! key = Some v →
  f_metadata (format_message msg i) !! key = Some v.
Proof.
  unfold import_flags. rewrite !not_elem_of_cons.
  intros (H1 & H2 & H3 & H4 & _) Hv. cbn [format_message f_metadata].
  by rewrite !lookup_insert_ne.
Qed.

Lemma parse_time_key_not_flag key :
  key ∈ parse_time_keys → key ∉ import_flags.
Proof.
  unfold parse_time_keys, import_flags.
  rewrite !elem_of_union, !elem_of_singleton, !not_elem_of_cons.
  intros [[[-> | ->] | ->] | ->]; repeat split; (done || apply not_elem_of_nil).
Qed.

(** C6: every record of a payload built by [create_batch] is the
    reshaping of the message at the same position of the batch: role,
    content and timestamp are those of the message, [externalId] is its
    [id], the metadata has the four import flags, [original_order] being
    the index of the message in the whole sequence, and keeps every other
    entry of the message's metadata, so all of them for a message that
    the parser emitted. *)
Theorem create_batch_reshapes (messages : list message)
    (start_idx b j : nat) (f : formatted_msg) :
  data_messages (create_batch messages start_idx b) !! j = Some f →
  ∃ msg,
    messages !! (start_idx + j) = Some msg
    ∧ f_role f = role msg
    ∧ f_content f = content msg
    ∧ f_timestamp f = timestamp msg
    ∧ externalId f = msg_id msg
    ∧ f_metadata f !! "historical_import" = Some (PBool true)
    ∧ f_metadata f !! "foundational_memory" = Some (PBool true)
    ∧ f_metadata f !! "batch_import" = Some (PBool true)
    ∧ f_metadata f !! "original_order"
      = Some (PInt (Z.of_nat (start_idx + j)))
    ∧ (∀ key v,
         key ∉ import_flags →
         metadata msg !! key = Some v → f_metadata f !! key = Some v)
    ∧ (∀ E path file,
         msg ∈ fresh_run E path file → metadata msg ⊆ f_metadata f).
Proof.
  intros Hf.
  assert (j < b) as Hj.
  { apply lookup_lt_Some in Hf. rewrite create_batch_length in Hf. lia. }
  rewrite create_batch_lookup in Hf by done.
  destruct (messages !! (start_idx + j)) as [msg |]; [| done].
  cbn in Hf. injection Hf as <-. exists msg.
  do 5 (split; [done |]).
  do 4 (split; [cbn [format_message f_metadata]; by simplify_map_eq |]).
  split; [apply format_message_keeps |].
  intros E path file Hin. apply map_subseteq_spec. intros key v Hv.
  apply format_message_keeps; [| done].
  apply parse_time_key_not_flag.
  pose proof (fresh_run_keyed E path file) as Hkeyed.
  unfold keyed in Hkeyed. rewrite Forall_forall in Hkeyed.
  rewrite <- (Hkeyed msg Hin). apply elem_of_dom. by exists v.
Qed.

(** ** Failed batches *)

Lemma import_batch_failed (w : World) (batch : batch_data) (k T : nat) :
  transport_failed (post w batch).2 →
  ∃ line,
    (line = BatchError k T
     ∨ ∃ status_code, line = BatchFailedStatus k T status_code)
    ∧ import_batch post w batch k T
      = ((post w batch).1, [line],
         (false, 0%Z, Z.of_nat (length (data_messages batch)))).
Proof.
  unfold import_batch.
  destruct (post w batch) as [w' [| status_code body]]; cbn [fst snd].
  - intros _. exists (BatchError k T). split; [by left | done].
  - cbn [transport_failed]. intros Hne.
    exists (BatchFailedStatus k T status_code).
    split; [right; by exists status_code |].
    destruct body; by rewrite bool_decide_false.
Qed.

(** C7: when the submission of a batch raises, or is answered by a status
    other than 200, the batch adds nothing to the successful count and its
    number of messages to the failed count, the failure is printed, the
    loop goes on with the remaining batches, and over the run every batch
    is submitted once, in order. *)
Theorem failed_batch_is_counted_and_skipped (messages : list message)
    (b k : nat) (w : World) :
  let T := total_batches_of (length messages) b in
  let before := upload post messages b (seq 1 k) (start_state w) in
  let batch := create_batch messages (k * b) b in
  let after := upload post messages b (seq 1 (S k)) (start_state w) in
  let final := upload post messages b (seq 1 T) (start_state w) in
  S k ≤ T →
  transport_failed (post (world before) batch).2 →
  total_success after = total_success before
  ∧ total_failed after
    = (total_failed before + Z.of_nat (length (data_messages batch)))%Z
  ∧ (∃ line,
       (line = BatchError (S k) T
        ∨ ∃ status_code, line = BatchFailedStatus (S k) T status_code)
       ∧ console after
         = console before
           ++ [ProcessingBatch (S k) T (k * b + 1)
                 (min (k * b + b) (length messages));
               line; BatchFailedContinuing (S k)])
  ∧ final = upload post messages b (seq (S (S k)) (T - S k)) after
  ∧ sent final
    = (fun i => (i, create_batch messages ((i - 1) * b) b)) <$> seq 1 T.
Proof.
  intros T before batch after final Hk Hfail.
  assert (after = step post messages b T before (S k)) as Hafter.
  { subst after before. by rewrite seq_S, upload_snoc. }
  destruct (import_batch_failed (world before) batch (S k) T Hfail)
    as (line & Hline & Himport).
  assert (after
          = {| world := (post (world before) batch).1;
               total_success := (total_success before + 0)%Z;
               total_failed :=
                 (total_failed before
                  + Z.of_nat (length (data_messages batch)))%Z;
               console :=
                 console before
                 ++ [ProcessingBatch (S k) T (k * b + 1)
                       (min (k * b + b) (length messages))]
                 ++ [line] ++ [BatchFailedContinuing (S k)];
               sent := sent before ++ [(S k, batch)] |}) as Hstep.
  { rewrite Hafter. unfold step. replace (S k - 1) with k by lia.
    fold batch. by rewrite Himport. }
  split; [rewrite Hstep; cbn; lia |].
  split; [by rewrite Hstep |].
  split; [exists line; split; [done | by rewrite Hstep] |].
  split.
  - subst final. by rewrite (upload_prefix messages b k T _ Hk), Hafter.
  - subst final. by rewrite upload_sent.
Qed.

(** ** Outcome of the run *)

(** C8: [batch_import] returns success exactly when the successful count
    accumulated over the batches is positive, whatever the failed count;
    the script exits with status 0 on success and 1 otherwise, so with a
    non-zero status when the count is zero. *)
Theorem run_succeeds_iff_some_import_succeeded (w : World)
    (file : option conversation_data) :
  let success := (batch_import post w file).1 in
  let st := (batch_import post w file).2 in
  (success = true ↔ (0 < total_success st)%Z)
  ∧ (main post w file).1 = (if success then 0 else 1)%Z
  ∧ total_success (main post w file).2 = total_success st
  ∧ (total_success st = 0%Z →
     success = false
     ∧ (main post w file).1 = 1%Z
     ∧ last (console (main post w file).2) = Some ImportFailedCompletely).
Proof.
  intros success st.
  assert (success = bool_decide (0 < total_success st)%Z) as Hsuccess.
  { subst success st. unfold batch_import, batch_import_sized.
    destruct file; cbn; [done |]. by rewrite bool_decide_false. }
  assert ((main post w file).1 = (if success then 0 else 1)%Z
          ∧ total_success (main post w file).2 = total_success st
          ∧ (success = false →
             last (console (main post w file).2)
             = Some ImportFailedCompletely))
    as (Hexit & Htotal & Hlast).
  { subst success st. unfold main.
    destruct (batch_import post w file) as [[|] st']; cbn;
      (split; [done | split; [done |]]); [done |].
    intros _. by rewrite last_snoc. }
  split; [| split; [done | split; [done |]]].
  - rewrite Hsuccess. by rewrite bool_decide_eq_true.
  - intros Hzero.
    assert (success = false) as Hfalse.
    { rewrite Hsuccess. apply bool_decide_eq_false. lia. }
    rewrite Hexit, Hfalse. auto.
Qed.

End UploaderFacts.

(** ** Instances *)

Section UploaderInstances.

Import BatchImportHistory Notions.

(** 120 messages in batches of 50. *)
Lemma batches_partition_messages_witness :
  1 ≤ 50
  ∧ ceiling_of_quotient 120 50
      (length (submitted_batches
                 (batch_import_sized flaky_post 50 0
                    (Some sample_document)).2)).
Proof.
  split; [lia |].
  apply (batches_partition_messages flaky_post 50 0 sample_document).
  lia.
Defined.

(** The last record of the third batch. *)
Lemma create_batch_reshapes_witness :
  data_messages (create_batch sample_messages 100 50) !! 19
  = Some (format_message sample_message 119)
  ∧ ∃ msg,
      sample_messages !! 119 = Some msg
      ∧ externalId (format_message sample_message 119) = msg_id msg
      ∧ f_metadata (format_message sample_message 119) !! "original_order"
        = Some (PInt 119).
Proof.
  assert (data_messages (create_batch sample_messages 100 50) !! 19
          = Some (format_message sample_message 119)) as H
    by (vm_compute; reflexivity).
  split; [exact H |].
  destruct (create_batch_reshapes sample_messages 100 50 19 _ H)
    as (msg & Hmsg & _ & _ & _ & Hid & _ & _ & _ & Horder & _).
  exists msg. split; [exact Hmsg |]. split; [exact Hid | exact Horder].
Defined.

(** The first batch, at an endpoint whose first request fails. *)
Lemma failed_batch_is_counted_and_skipped_witness :
  1 ≤ total_batches_of (length sample_messages) 50
  ∧ transport_failed
      (flaky_post 0 (create_batch sample_messages (0 * 50) 50)).2
  ∧ total_success
      (upload flaky_post sample_messages 50 (seq 1 1) (start_state 0))
    = 0%Z
  ∧ total_failed
      (upload flaky_post sample_messages 50 (seq 1 1) (start_state 0))
    = 50%Z.
Proof.
  assert (1 ≤ total_batches_of (length sample_messages) 50) as Hk
    by (vm_compute; lia).
  assert (transport_failed
            (flaky_post 0 (create_batch sample_messages (0 * 50) 50)).2)
    as Hfail by exact I.
  split; [exact Hk |]. split; [exact Hfail |].
  destruct (failed_batch_is_counted_and_skipped flaky_post sample_messages
              50 0 0 Hk Hfail) as (Hsuccess & Hfailed & _).
  split; [rewrite Hsuccess | rewrite Hfailed]; vm_compute; reflexivity.
Defined.

(** One batch failed outright and two reported one import each: the run
    is a success, with 50 failed imports. *)
Lemma run_succeeds_iff_some_import_succeeded_witness :
  (batch_import flaky_post 0 (Some sample_document)).1 = true
  ∧ total_failed (batch_import flaky_post 0 (Some sample_document)).2
    = 50%Z
  ∧ (main flaky_post 0 (Some sample_document)).1 = 0%Z.
Proof.
  destruct (run_succeeds_iff_some_import_succeeded flaky_post 0
              (Some sample_document)) as (Hiff & Hexit & _).
  assert ((batch_import flaky_post 0 (Some sample_document)).1 = true)
    as Hsuccess by (apply Hiff; vm_compute; reflexivity).
  split; [exact Hsuccess |]. split; [vm_compute; reflexivity |].
  rewrite Hexit, Hsuccess. reflexivity.
Defined.

End UploaderInstances.

(** * Properties of import_conversation.py *)

Section ImporterFacts.

Import ImportConversation.

Context {World : Type} (http : World → request → World * reply).
Context (json_error_is_request_exception : bool).

Local Abbreviation import_conversation :=
  (import_conversation http json_error_is_request_exception).
Local Abbreviation run_import :=
  (run_import http json_error_is_request_exception).
Local Abbreviation main := (main http json_error_is_request_exception).

Implicit Types (s : state (World := World)).

Lemma prepare_import_payload_keys time_s conversation :
  dom (prepare_import_payload time_s conversation)
  = {["data"; "options"]}.
Proof.
  unfold prepare_import_payload.
  rewrite dom_insert_L, dom_singleton_L. set_solver.
Qed.

Lemma prepare_import_payload_no_entries time_s conversation :
  prepare_import_payload time_s conversation !! "gnosisEntries" = None.
Proof.
  apply not_elem_of_dom. rewrite prepare_import_payload_keys.
  rewrite elem_of_union, !elem_of_singleton. intros [H | H]; discriminate H.
Qed.

Lemma import_conversation_raises time_s conversation s :
  import_conversation (prepare_import_payload time_s conversation) s
  = (s, Raise (KeyError "gnosisEntries")).
Proof.
  unfold ImportConversation.import_conversation, bind, getitem.
  by rewrite prepare_import_payload_no_entries.
Qed.

Lemma bind_not_ret_true {A} (m : M A) (k : A → M bool) s :
  (∀ a s', (k a s').2 ≠ Ret true) → (bind m k s).2 ≠ Ret true.
Proof.
  intros Hk. unfold bind. destruct (m s) as [s' [a | e]]; [apply Hk | done].
Qed.

Lemma run_import_not_true time_s file s :
  (run_import time_s file s).2 ≠ Ret true.
Proof.
  unfold ImportConversation.run_import.
  apply bind_not_ret_true. intros [|] s1; cbn [negb]; [| done].
  destruct file as [conversation |];
    [| apply bind_not_ret_true; by intros [] s2].
  do 7 (apply bind_not_ret_true; intros ? ?).
  destruct (py_len _); [| done].
  apply bind_not_ret_true. intros _ s2.
  unfold bind. rewrite import_conversation_raises. done.
Qed.

Lemma run_import_reaches_key_error time_s conversation s w' body
    total kai_messages aletheia_messages :
  http (world s) GetStatus = (w', Response 200 body) →
  conversation_metadata conversation !! "total_messages" = Some total →
  conversation_metadata conversation !! "kai_messages"
  = Some kai_messages →
  conversation_metadata conversation !! "aletheia_messages"
  = Some aletheia_messages →
  (run_import time_s (Some conversation) s).2
  = Raise (KeyError "gnosisEntries")
  ∧ requests (run_import time_s (Some conversation) s).1
    = requests s ++ [GetStatus].
Proof.
  intros Hhttp Htotal Hkai Haletheia.
  unfold ImportConversation.run_import, test_connectivity, send, bind.
  rewrite Hhttp. rewrite bool_decide_true by done. cbn.
  unfold getitem. rewrite Htotal, Hkai, Haletheia. cbn.
  unfold prepare_import_payload at 1.
  rewrite lookup_insert_ne, lookup_singleton_eq by done. cbn.
  rewrite lookup_insert_ne, lookup_singleton_eq by done. cbn.
  rewrite import_conversation_raises. done.
Qed.

(** C10: the payload that [prepare_import_payload] returns has the
    top-level keys [data] and [options] and no other; on it
    [import_conversation] raises the [KeyError] of [gnosisEntries], which
    its handler does not catch, before it prints or sends anything; so
    [run_import] never returns [True] and the script never exits with
    status 0: when the system is reachable and the document is loaded, the
    run ends in that [KeyError], after the connectivity request alone. *)
Theorem import_conversation_never_succeeds (time_s : Z)
    (conversation : conversation_data) :
  dom (prepare_import_payload time_s conversation) = {["data"; "options"]}
  ∧ (∀ s,
       import_conversation (prepare_import_payload time_s conversation) s
       = (s, Raise (KeyError "gnosisEntries")))
  ∧ (∀ file s, (run_import time_s file s).2 ≠ Ret true)
  ∧ (∀ file s, (main time_s file s).2 ≠ Ret 0%Z)
  ∧ (∀ s w' body total kai_messages aletheia_messages,
       http (world s) GetStatus = (w', Response 200 body) →
       conversation_metadata conversation !! "total_messages"
       = Some total →
       conversation_metadata conversation !! "kai_messages"
       = Some kai_messages →
       conversation_metadata conversation !! "aletheia_messages"
       = Some aletheia_messages →
       (run_import time_s (Some conversation) s).2
       = Raise (KeyError "gnosisEntries")
       ∧ requests (run_import time_s (Some conversation) s).1
         = requests s ++ [GetStatus]).
Proof.
  split; [apply prepare_import_payload_keys |].
  split; [intros s; apply import_conversation_raises |].
  split; [intros file s; apply run_import_not_true |].
  split; [| intros *; apply run_import_reaches_key_error].
  intros file s. unfold ImportConversation.main, bind.
  pose proof (run_import_not_true time_s file s) as H.
  destruct (run_import time_s file s) as [s' [[|] | e]]; cbn in *; done.
Qed.

End ImporterFacts.

(** ** Instances *)

Section ImporterInstances.

Import ImportConversation Notions.

(** A reachable system and the document of the sample messages. *)
Lemma import_conversation_never_succeeds_witness :
  (run_import always_ok false 0 (Some (sample_parsed_document))
     {| world := tt; console := []; requests := [] |}).2
  = Raise (KeyError "gnosisEntries")
  ∧ requests
      (run_import always_ok false 0 (Some (sample_parsed_document))
         {| world := tt; console := []; requests := [] |}).1
    = [GetStatus].
Proof.
  apply (proj2 (proj2 (proj2 (proj2
           (import_conversation_never_succeeds always_ok false 0
              sample_parsed_document))))
           {| world := tt; console := []; requests := [] |} tt None
           (PInt 120) (PInt 120) (PInt 0));
    vm_compute; reflexivity.
Defined.

End ImporterInstances.

(** * Further properties of the parser *)

Section ParserCoverage.

Import ConversationParser Notions MoreNotions.

Implicit Types (E : env) (self : parser) (st : locals) (base : datetime).

(** ** Stripping *)

Lemma lstrip_of_suffix p (s : str) : ∃ pre, s = pre ++ lstrip_of p s.
Proof.
  induction s as [| c s IH]; [by exists [] |].
  cbn. destruct (p c); [| by exists []].
  destruct IH as [pre Hpre]. exists (c :: pre).
  by rewrite <- app_comm_cons, <- Hpre.
Qed.

Lemma lstrip_of_head p (s : str) c r :
  lstrip_of p s = c :: r → p c = false.
Proof.
  induction s as [| d s IH]; [done |].
  cbn. destruct (p d) eqn:Hd; [done |]. by intros [= <- <-].
Qed.

Lemma lstrip_of_fixed p (s : str) c :
  p c = false → lstrip_of p (c :: s) = c :: s.
Proof. intros Hc. cbn. by rewrite Hc. Qed.

Lemma lstrip_of_idemp p (s : str) :
  lstrip_of p (lstrip_of p s) = lstrip_of p s.
Proof.
  destruct (lstrip_of p s) as [| c r] eqn:H; [done |].
  apply lstrip_of_fixed. by apply (lstrip_of_head p s c r).
Qed.

Lemma lstrip_of_app_stop p (l : str) c r :
  p c = false → lstrip_of p (l ++ c :: r) = lstrip_of p l ++ c :: r.
Proof.
  intros Hc. induction l as [| a l IH]; [by apply lstrip_of_fixed |].
  cbn. by destruct (p a).
Qed.

Lemma rstrip_of_prefix p (s : str) : ∃ post, s = rstrip_of p s ++ post.
Proof.
  unfold rstrip_of. destruct (lstrip_of_suffix p (rev s)) as [pre Hpre].
  exists (rev pre). rewrite <- rev_app_distr, <- Hpre.
  by rewrite rev_involutive.
Qed.

Lemma rstrip_of_cons p c (s : str) :
  p c = false → rstrip_of p (c :: s) = c :: rstrip_of p s.
Proof.
  intros Hc. unfold rstrip_of. cbn [rev].
  rewrite lstrip_of_app_stop by done. by rewrite rev_app_distr.
Qed.

Lemma rstrip_of_idemp p (s : str) :
  rstrip_of p (rstrip_of p s) = rstrip_of p s.
Proof. unfold rstrip_of. by rewrite rev_involutive, lstrip_of_idemp. Qed.

Lemma strip_idemp (s : str) : strip (strip s) = strip s.
Proof.
  unfold strip.
  destruct (lstrip_of isspace s) as [| c r] eqn:H; [done |].
  pose proof (lstrip_of_head _ _ _ _ H) as Hc.
  rewrite (rstrip_of_cons _ _ _ Hc), (lstrip_of_fixed _ _ _ Hc).
  by rewrite (rstrip_of_cons _ _ _ Hc), rstrip_of_idemp.
Qed.

(** ** Whitespace runs *)

Lemma single_spaced_after_weaken (s : str) :
  single_spaced_after true s = true → single_spaced_after false s = true.
Proof.
  destruct s as [| c s]; [done |]. cbn. destruct (isspace c); [| done].
  by rewrite andb_false_r.
Qed.

Lemma single_spaced_after_suffix (pre s : str) : ∀ b,
  single_spaced_after b (pre ++ s) = true →
  single_spaced_after false s = true.
Proof.
  induction pre as [| c pre IH]; intros b.
  - destruct b; [apply single_spaced_after_weaken | done].
  - cbn. destruct (isspace c).
    + rewrite !andb_true_iff. intros [_ H]. by apply (IH true).
    + apply IH.
Qed.

Lemma single_spaced_after_prefix (s post : str) : ∀ b,
  single_spaced_after b (s ++ post) = true → single_spaced_after b s = true.
Proof.
  induction s as [| c s IH]; intros b; [done |].
  cbn. destruct (isspace c).
  - rewrite !andb_true_iff. intros [H1 H2]. split; [done |]. by apply IH.
  - apply IH.
Qed.

Lemma collapse_ws_from_single_spaced (s : str) : ∀ b,
  single_spaced_after b (collapse_ws_from b s) = true.
Proof.
  induction s as [| c s IH]; intros b; [done |].
  cbn. destruct (isspace c) eqn:Hc.
  - destruct b; [apply IH |]. cbn. by rewrite IH.
  - cbn. rewrite Hc. apply IH.
Qed.

Lemma sub_line_number_suffix (s : str) :
  ∃ pre, s = pre ++ sub_line_number s.
Proof.
  unfold sub_line_number.
  destruct (lstrip_of isspace s) as [| c r] eqn:Hs; [by exists [] |].
  destruct (isdecimal c); [| by exists []].
  destruct (startswith _ _); [| by exists []].
  destruct (lstrip_of_suffix isspace s) as [pre1 H1].
  destruct (lstrip_of_suffix isdecimal (c :: r)) as [pre2 H2].
  exists (pre1 ++ pre2 ++ take (length line_number_marker)
                           (lstrip_of isdecimal (c :: r))).
  rewrite <- !app_assoc, take_drop, <- H2, <- Hs. exact H1.
Qed.

Lemma clean_message_single_spaced (message : str) :
  single_spaced (clean_message message).
Proof.
  unfold clean_message, single_spaced.
  set (collapsed := collapse_ws (strip message)).
  pose proof (collapse_ws_from_single_spaced (strip message) false) as H.
  fold (collapse_ws (strip message)) in H. fold collapsed in H.
  destruct (lstrip_of_suffix is_bom collapsed) as [pre1 H1].
  destruct (sub_line_number_suffix (lstrip_of is_bom collapsed)) as [pre2 H2].
  set (t := sub_line_number (lstrip_of is_bom collapsed)) in *.
  assert (single_spaced_after false t = true) as Ht.
  { apply (single_spaced_after_suffix (pre1 ++ pre2) t false).
    by rewrite <- app_assoc, <- H2, <- H1. }
  unfold strip.
  destruct (lstrip_of_suffix isspace t) as [pre3 H3].
  destruct (rstrip_of_prefix isspace (lstrip_of isspace t)) as [post H4].
  apply (single_spaced_after_prefix _ post).
  rewrite <- H4. apply (single_spaced_after_suffix pre3 _ false).
  by rewrite <- H3.
Qed.

(** X1. [clean_message] returns a text without leading or trailing
    whitespace in which every whitespace character is a single space
    between two other characters. *)
Theorem clean_message_is_trimmed_and_single_spaced (message : str) :
  strip (clean_message message) = clean_message message
  ∧ single_spaced (clean_message message).
Proof. split; [apply strip_idemp | apply clean_message_single_spaced]. Qed.

(** ** Invariants of the loop *)

Lemma flush_cases E base ls le st :
  flush E base ls le st = st
  ∨ ∃ spk,
      current_message st ≠ []
      ∧ current_speaker st = Some spk
      ∧ clean_message (join [10%N] (current_message st)) ≠ []
      ∧ flush E base ls le st
        = append_message E base
            (clean_message (join [10%N] (current_message st))) ls le spk st.
Proof.
  unfold flush.
  destruct (current_message st) as [| l0 rest] eqn:Hcm; [by left |].
  destruct (current_speaker st) as [spk |]; [| by left].
  case_bool_decide; [by left |]. right. by exists spk.
Qed.

Lemma body_cases E self base i line st :
  (blank line ∧ body E self base i line st = st)
  ∨ (¬ blank line
     ∧ body E self base i line st
       = {| messages := messages st;
            current_message := current_message st ++ [line];
            current_speaker := current_speaker st;
            now_calls := now_calls st;
            uuid_calls := uuid_calls st |})
  ∨ (¬ blank line
     ∧ ∃ d,
         let flushed :=
           flush E base
             (Z.of_nat i + 1 - Z.of_nat (length (current_message st)))%Z
             (Z.of_nat i) st in
         body E self base i line st
         = {| messages := messages flushed;
              current_message := [line];
              current_speaker := Some d;
              now_calls := now_calls flushed;
              uuid_calls := uuid_calls flushed |}).
Proof.
  unfold body, blank. case_bool_decide; [by left |]. right.
  destruct (detect_speaker_change self line (i + 1)) as [d |]; [| by left].
  case_bool_decide; [| by left]. right. split; [done |]. by exists d.
Qed.

(** An invariant of the iterations holds after the loop. *)
Lemma loop_invariant (I : nat → locals → Prop) E self base :
  (∀ i line st, I i st → I (S i) (body E self base i line st)) →
  ∀ rest i st, I i st → I (i + length rest) (loop E self base i rest st).
Proof.
  intros Hbody. induction rest as [| line rest IH]; intros i st Hi.
  - cbn. by rewrite Nat.add_0_r.
  - cbn [loop length].
    replace (i + S (length rest)) with (S i + length rest) by lia.
    by apply IH, Hbody.
Qed.

(** A property of the message list that appending a cleaned, non-empty
    text keeps holds at the end of a run if it holds at its start. *)
Lemma run_messages_invariant (P : list message → Prop) E self lines :
  (∀ text ls le spk st,
     clean_message text ≠ [] →
     P (messages st) →
     P (messages
          (append_message E (now E 0 - timedelta_days 30)%Z
             (clean_message text) ls le spk st))) →
  P (self_messages self) →
  P (messages (run E self lines)).
Proof.
  intros Happend Hself.
  assert (∀ ls le st,
            P (messages st) →
            P (messages (flush E (now E 0 - timedelta_days 30)%Z ls le st)))
    as Hflush.
  { intros ls le st Hst.
    destruct (flush_cases E (now E 0 - timedelta_days 30)%Z ls le st)
      as [-> | (spk & _ & _ & Hne & ->)]; [done |].
    by apply Happend. }
  unfold run. apply Hflush.
  apply (loop_invariant (fun _ st => P (messages st)) E self _); [| done].
  intros i line st Hst.
  destruct (body_cases E self (now E 0 - timedelta_days 30)%Z i line st)
    as [[_ ->] | [[_ ->] | [_ (d & ->)]]]; [done | done |].
  cbn [messages]. by apply Hflush.
Qed.

(** X2. Every message that a run emits has a content that is not empty,
    has no leading or trailing whitespace, and has single spaces as its
    only whitespace. *)
Theorem emitted_contents_are_clean E path file :
  Forall (fun m =>
            content m ≠ []
            ∧ strip (content m) = content m
            ∧ single_spaced (content m))
    (fresh_run E path file).
Proof.
  unfold fresh_run, parse_conversation.
  destruct (read_file file) as [[| l ls] report]; cbn [returned];
    [apply Forall_nil_2 |].
  apply (run_messages_invariant (Forall _)); [| apply Forall_nil_2].
  intros text ls' le spk st Hne Hst.
  cbn [append_message messages]. apply Forall_app. split; [done |].
  apply Forall_singleton. cbn [content]. split; [done |].
  split; [apply strip_idemp | apply clean_message_single_spaced].
Qed.

(** ** Blank input *)

Lemma loop_blank E self base lines : ∀ i st,
  Forall blank lines → loop E self base i lines st = st.
Proof.
  induction lines as [| line rest IH]; intros i st Hall; [done |].
  apply Forall_cons in Hall as [Hline Hrest]. cbn [loop].
  unfold body. rewrite bool_decide_true by exact Hline. by apply IH.
Qed.

(** X3. A file that cannot be read, is empty, or has blank lines only
    yields no message, and the object is left without messages. *)
Theorem blank_input_yields_no_message E path file :
  Forall blank (read_file file).1 →
  fresh_run E path file = []
  ∧ self_messages (self_after (parse_conversation E (init path) file)) = [].
Proof.
  intros Hblank. unfold fresh_run, parse_conversation.
  destruct (read_file file) as [[| l ls] report]; cbn [fst returned] in *;
    [done |].
  cbn [self_after self_messages]. unfold run.
  by rewrite loop_blank.
Qed.

(** ** Line ranges *)

Lemma ranges_between_mono (msgs : list message) : ∀ lo hi hi',
  ranges_between lo hi msgs → (hi ≤ hi')%Z → ranges_between lo hi' msgs.
Proof.
  induction msgs as [| m rest IH]; intros lo hi hi'; cbn; [lia |].
  intros (ls & le & Hs & He & Hlt & Hrest) Hhi.
  exists ls, le. repeat (split; [done |]). by apply (IH le hi hi').
Qed.

Lemma ranges_between_snoc (msgs : list message) m (ls le : Z) : ∀ lo hi hi',
  ranges_between lo hi msgs →
  metadata m !! "line_start" = Some (PInt ls) →
  metadata m !! "line_end" = Some (PInt le) →
  (hi < ls ≤ le)%Z → (le ≤ hi')%Z →
  ranges_between lo hi' (msgs ++ [m]).
Proof.
  induction msgs as [| m0 rest IH]; intros lo hi hi'; cbn.
  - intros Hlo Hs He Hlt Hhi. exists ls, le. repeat (split; [done |]).
    split; [lia | done].
  - intros (ls0 & le0 & Hs0 & He0 & Hlt0 & Hrest) Hs He Hlt Hhi.
    exists ls0, le0. repeat (split; [done |]). by apply (IH le0 hi hi').
Qed.

Lemma flush_ranges E base (ls le : Z) (F hi : nat) st :
  ranges_between 0 (Z.of_nat F) (messages st) →
  F ≤ hi →
  (current_message st ≠ [] →
   (Z.of_nat F < ls ≤ le)%Z ∧ (le ≤ Z.of_nat hi)%Z) →
  ranges_between 0 (Z.of_nat hi) (messages (flush E base ls le st)).
Proof.
  intros Hmsgs HF Hcm.
  destruct (flush_cases E base ls le st) as [-> | (spk & Hne & _ & _ & ->)].
  - apply (ranges_between_mono _ _ (Z.of_nat F)); [done | lia].
  - destruct (Hcm Hne) as [Hlt Hhi]. cbn [append_message messages].
    apply (ranges_between_snoc _ _ ls le 0%Z (Z.of_nat F)); try done;
      by simplify_map_eq.
Qed.

(** Before line [i] is read, the recorded ranges end at some line [F] and
    the buffer has at most the lines after [F]. *)
Lemma body_ranges E self base i line st :
  (∃ F, F ≤ i ∧ length (current_message st) ≤ i - F
        ∧ ranges_between 0 (Z.of_nat F) (messages st)) →
  ∃ F, F ≤ S i
       ∧ length (current_message (body E self base i line st)) ≤ S i - F
       ∧ ranges_between 0 (Z.of_nat F)
           (messages (body E self base i line st)).
Proof.
  intros (F & HF & Hlen & Hmsgs).
  destruct (body_cases E self base i line st)
    as [[_ ->] | [[_ ->] | [_ (d & ->)]]].
  - exists F. split; [lia |]. split; [lia | done].
  - exists F. cbn [current_message messages]. rewrite length_app. cbn [length].
    split; [lia |]. split; [lia | done].
  - exists i. cbn [current_message messages length].
    split; [lia |]. split; [lia |].
    apply (flush_ranges _ _ _ _ F); [done | lia |].
    intros Hne. destruct (current_message st); [done |].
    cbn [length] in *. lia.
Qed.

(** X4. The line ranges recorded by a run, blank lines or not, lie within
    the lines of the file, are not empty, and are disjoint and in the
    order of the messages: with [n] lines,
    [1 ≤ line_start ≤ line_end ≤ n] and each range starts after the
    previous one ends. *)
Theorem recorded_ranges_are_ordered_and_in_bounds E path file :
  ranges_between 0 (Z.of_nat (length (read_file file).1))
    (fresh_run E path file).
Proof.
  unfold fresh_run, parse_conversation.
  destruct (read_file file) as [lines report]; cbn [fst].
  destruct lines as [| l ls] eqn:Hlines; cbn [returned]; [cbn; lia |].
  rewrite <- Hlines. clear Hlines l ls. unfold run.
  set (base := (now E 0 - timedelta_days 30)%Z).
  set (st0 := {| messages := self_messages (init path);
                 current_message := []; current_speaker := None;
                 now_calls := 1; uuid_calls := 0 |}).
  destruct (loop_invariant
              (fun i st =>
                 ∃ F, F ≤ i ∧ length (current_message st) ≤ i - F
                      ∧ ranges_between 0 (Z.of_nat F) (messages st))
              E (init path) base
              (fun i line st => body_ranges E (init path) base i line st)
              lines 0 st0)
    as (F & HF & Hlen & Hmsgs).
  { exists 0. cbn. split; [lia |]. split; [lia | lia]. }
  cbn [Nat.add] in *.
  apply (flush_ranges _ _ _ _ F); [done | lia |].
  intros Hne. destruct (current_message (loop _ _ _ _ _ _)); [done |].
  cbn [length] in *. lia.
Qed.

(** ** Identifiers *)

Lemma flush_drawn_in_order E base ls le st :
  drawn_in_order E st → drawn_in_order E (flush E base ls le st).
Proof.
  intros (Hu & Hn & Hmsgs).
  destruct (flush_cases E base ls le st) as [-> | (spk & _ & _ & _ & ->)];
    [done |].
  unfold drawn_in_order.
  cbn [append_message messages uuid_calls now_calls].
  rewrite length_app. cbn [length].
  split; [lia |]. split; [lia |].
  intros k m. destruct (decide (k < length (messages st))) as [Hk | Hk].
  - rewrite lookup_app_l by done. apply Hmsgs.
  - rewrite lookup_app_r by lia.
    destruct (k - length (messages st)) as [| d] eqn:Hd; [| done].
    cbn. intros [= <-]. cbn [msg_id metadata].
    assert (k = length (messages st)) as -> by lia.
    rewrite Hu, Hn. by rewrite lookup_insert_eq.
Qed.

Lemma fresh_run_drawn_in_order E path file k m :
  fresh_run E path file !! k = Some m →
  msg_id m = uuid4 E k
  ∧ metadata m !! "imported_at" = Some (PIso (now E (S k))).
Proof.
  unfold fresh_run, parse_conversation.
  destruct (read_file file) as [[| l ls] report]; cbn [returned]; [done |].
  unfold run.
  set (base := (now E 0 - timedelta_days 30)%Z).
  set (st0 := {| messages := self_messages (init path);
                 current_message := []; current_speaker := None;
                 now_calls := 1; uuid_calls := 0 |}).
  assert (drawn_in_order E (loop E (init path) base 0 (l :: ls) st0)) as H.
  { apply (loop_invariant (fun _ st => drawn_in_order E st)
             E (init path) base); [| by repeat split].
    intros i line st Hst.
    destruct (body_cases E (init path) base i line st)
      as [[_ ->] | [[_ ->] | [_ (d & ->)]]]; [done | done |].
    unfold drawn_in_order. cbn [messages uuid_calls now_calls].
    by apply flush_drawn_in_order. }
  destruct (flush_drawn_in_order E base
              (Z.of_nat (length (l :: ls))
               - Z.of_nat (length (current_message
                                     (loop E (init path) base 0 (l :: ls)
                                        st0))) + 1)%Z
              (Z.of_nat (length (l :: ls))) _ H) as (_ & _ & Hall).
  apply Hall.
Qed.

(** X5. In a run the k-th emitted message has the k-th identifier drawn
    and the clock reading after the k-th one as its parse time; so the
    identifiers of a run are pairwise distinct when the draws are. *)
Theorem identifiers_are_the_draws_in_order E path file :
  (∀ k m, fresh_run E path file !! k = Some m →
          msg_id m = uuid4 E k
          ∧ metadata m !! "imported_at" = Some (PIso (now E (S k))))
  ∧ ((∀ a b, uuid4 E a = uuid4 E b → a = b) →
     NoDup (msg_id <$> fresh_run E path file)).
Proof.
  split; [apply fresh_run_drawn_in_order |].
  intros Hinj.
  assert (msg_id <$> fresh_run E path file
          = uuid4 E <$> seq 0 (length (fresh_run E path file))) as ->.
  { apply list_eq. intros k. rewrite !list_lookup_fmap.
    destruct (fresh_run E path file !! k) as [m |] eqn:Hk; cbn.
    - rewrite lookup_seq_lt by (by apply lookup_lt_Some in Hk). cbn.
      f_equal. by apply (fresh_run_drawn_in_order E path file k m).
    - rewrite lookup_seq_ge; [done |]. by apply lookup_ge_None. }
  apply NoDup_fmap_2; [exact Hinj | apply NoDup_seq].
Qed.

(** ** Repeated calls *)

(** X6. A call of [parse_conversation] on a file with lines returns the
    messages that the object held before, followed by the new ones, and
    leaves the returned list in the object; on a file without lines, or
    one that cannot be read, it returns the empty list, whatever the
    object holds, and leaves the object as it is. *)
Theorem parse_conversation_appends_to_the_object E self file :
  ((read_file file).1 = [] →
   returned (parse_conversation E self file) = []
   ∧ self_after (parse_conversation E self file) = self)
  ∧ ((read_file file).1 ≠ [] →
     ∃ new,
       returned (parse_conversation E self file) = self_messages self ++ new
       ∧ self_messages (self_after (parse_conversation E self file))
         = returned (parse_conversation E self file)).
Proof.
  unfold parse_conversation.
  destruct (read_file file) as [[| l ls] report]; cbn [fst]; split; try done.
  intros _. cbn [returned self_after self_messages].
  assert (∃ new, messages (run E self (l :: ls)) = self_messages self ++ new)
    as [new Hnew]; [| by exists new].
  apply (run_messages_invariant
           (fun msgs => ∃ new, msgs = self_messages self ++ new)).
  - intros text ls' le spk st _ [new Hnew]. cbn [append_message messages].
    rewrite Hnew, <- app_assoc. by eexists.
  - exists []. by rewrite app_nil_r.
Qed.

(** ** The saved document *)

Lemma count_role_total (msgs : list message) :
  count_role kai msgs + count_role aletheia msgs + count_role system msgs
  = length msgs.
Proof.
  unfold count_role. induction msgs as [| m rest IH]; [done |].
  rewrite !filter_cons. cbn [length].
  destruct (role m); repeat case_decide; try done; cbn [length]; lia.
Qed.

(** X7. The counts by role that [save_parsed_data] writes add up to the
    total that it writes, which is the number of messages of the
    document. *)
Theorem saved_counts_add_up self (parsing_timestamp : datetime) :
  let document := parsed_document self parsing_timestamp in
  ∃ k a s : nat,
    conversation_metadata document !! "kai_messages"
    = Some (PInt (Z.of_nat k))
    ∧ conversation_metadata document !! "aletheia_messages"
      = Some (PInt (Z.of_nat a))
    ∧ conversation_metadata document !! "system_messages"
      = Some (PInt (Z.of_nat s))
    ∧ conversation_metadata document !! "total_messages"
      = Some (PInt (Z.of_nat (k + a + s)))
    ∧ k + a + s = length (cd_messages document).
Proof.
  exists (count_role kai (self_messages self)),
    (count_role aletheia (self_messages self)),
    (count_role system (self_messages self)).
  cbn [parsed_document conversation_metadata cd_messages].
  rewrite count_role_total. repeat split; by simplify_map_eq.
Qed.

(** ** The script *)

Lemma self_after_holds_returned E self file :
  returned (parse_conversation E self file) ≠ [] →
  self_messages (self_after (parse_conversation E self file))
  = returned (parse_conversation E self file).
Proof.
  unfold parse_conversation.
  by destruct (read_file file) as [[| l ls] report].
Qed.

(** X8. The parser script exits with status 1 when it is not given one
    argument, and then reads and writes nothing; given one argument it
    exits with status 0 whatever happens, and writes a file exactly when
    some message was parsed and the output can be written: the file
    [parsed_conversation.json], holding the parsed messages. *)
Theorem parser_script_outcomes E (fs : str → option (list str))
    (writable : bool) (argv : list str) :
  (length argv ≠ 2 →
   main E fs writable argv = (1%Z, {| written := []; stdout := [Usage] |}))
  ∧ (∀ prog path,
       argv = [prog; path] →
       (main E fs writable argv).1 = 0%Z
       ∧ (fresh_run E path (fs path) = [] ∨ writable = false →
          written (main E fs writable argv).2 = [])
       ∧ (fresh_run E path (fs path) ≠ [] → writable = true →
          ∃ document,
            written (main E fs writable argv).2
            = [(lit "parsed_conversation.json", document)]
            ∧ cd_messages document = fresh_run E path (fs path))).
Proof.
  split.
  - intros Hlen. destruct argv as [| a [| b [| c rest]]]; try done.
  - intros prog path ->. unfold main, fresh_run.
    destruct (returned (parse_conversation E (init path) (fs path)))
      as [| m ms] eqn:Hret.
    + split; [done |]. split; [done |]. by intros H.
    + split; [done |]. unfold print_summary, save_parsed_data.
      split.
      * intros [H | ->]; [done | done].
      * intros _ ->. eexists. split; [done |].
        cbn [parsed_document cd_messages].
        rewrite <- Hret. apply self_after_holds_returned.
        by rewrite Hret.
Qed.

(** ** Speaker detection *)

(** X9. [detect_speaker_change] gives no speaker exactly for blank lines.
    [parse_conversation] never assigns the attribute [current_speaker] of
    the object, and while that attribute is [None] a line is attributed to
    aletheia only by one of the six patterns, never as a continuation of
    the previous turn. *)
Theorem detection_in_a_run self (line : str) (line_number : nat) :
  (detect_speaker_change self line line_number = None ↔ blank line)
  ∧ (self_current_speaker self = None →
     detect_speaker_change self line line_number = Some aletheia →
     existsb (fun pattern => pattern (lstrip_of is_bom line))
       aletheia_patterns = true)
  ∧ (∀ E file,
       self_current_speaker (self_after (parse_conversation E self file))
       = self_current_speaker self).
Proof.
  split; [| split].
  - unfold detect_speaker_change, blank.
    case_bool_decide; [done |].
    split; [| done].
    repeat (match goal with
            | |- context [if ?b then _ else _] => destruct b
            end; try done).
  - intros Hnone. unfold detect_speaker_change. rewrite Hnone.
    case_bool_decide; [done |].
    destruct (existsb _ [lit "Google Search"; _; _]); [done |].
    destruct (match_any_prefix _ _); [done |].
    destruct (existsb _ aletheia_patterns); [done |].
    rewrite (bool_decide_false (None = Some aletheia)) by done.
    cbn [andb default].
    repeat (match goal with
            | |- context [if ?b then _ else _] => destruct b
            end; try done).
  - intros E file. unfold parse_conversation.
    by destruct (read_file file) as [[| l ls] report].
Qed.

(** ** Number of messages *)

Lemma flush_count E base ls le st :
  length (messages (flush E base ls le st))
  ≤ length (messages st) + pending st.
Proof.
  destruct (flush_cases E base ls le st) as [-> | (spk & Hne & _ & _ & ->)];
    [lia |].
  cbn [append_message messages]. rewrite length_app. cbn [length].
  unfold pending. destruct (current_message st); [done | lia].
Qed.

Lemma loop_count E self base (rest : list str) : ∀ i st,
  length (messages (loop E self base i rest st))
  + pending (loop E self base i rest st)
  ≤ length (messages st) + pending st + non_blank_lines rest.
Proof.
  induction rest as [| line rest IH]; intros i st; [cbn; lia |].
  cbn [loop]. etrans; [apply IH |].
  unfold non_blank_lines. rewrite filter_cons.
  destruct (body_cases E self base i line st)
    as [[Hblank ->] | [[Hline ->] | [Hline (d & ->)]]].
  - unfold blank in Hblank. case_decide; [done | lia].
  - unfold blank in Hline. case_decide; [| done]. cbn [length].
    unfold pending at 1. cbn [current_message messages].
    destruct (current_message st ++ [line]); lia.
  - unfold blank in Hline. case_decide; [| done]. cbn [length].
    unfold pending at 1. cbn [current_message messages].
    pose proof (flush_count E base
                  (Z.of_nat i + 1 - Z.of_nat (length (current_message st)))%Z
                  (Z.of_nat i) st).
    lia.
Qed.

(** X23. A run emits at most as many messages as the file has lines that
    are not blank. *)
Theorem at_most_one_message_per_non_blank_line E path file :
  length (fresh_run E path file) ≤ non_blank_lines (read_file file).1.
Proof.
  unfold fresh_run, parse_conversation.
  destruct (read_file file) as [[| l ls] report]; cbn [fst returned];
    [cbn; lia |].
  unfold run. etrans; [apply flush_count |].
  etrans; [apply loop_count |]. cbn. lia.
Qed.

End ParserCoverage.

(** * Further properties of the batch uploader *)

Section UploaderCoverage.

Import BatchImportHistory Notions MoreNotions.

Context {World : Type} (post : World → batch_data → World * reply).

Implicit Types (messages : list message) (st : run_state (World := World)).

(** X10. The payload of [create_batch] has at most [batch_size] records:
    as many as there are messages from [start_idx] on, if these are fewer;
    an offset at or after the end of the list gives an empty payload, not
    an error. *)
Theorem create_batch_size (messages : list message)
    (start_idx batch_size : nat) :
  length (data_messages (create_batch messages start_idx batch_size))
  = min batch_size (length messages - start_idx)
  ∧ (length messages ≤ start_idx →
     data_messages (create_batch messages start_idx batch_size) = []).
Proof.
  rewrite create_batch_length. split; [lia |].
  intros Hge. apply length_zero_iff_nil. rewrite create_batch_length. lia.
Qed.

(** ** Accounting *)

Lemma step_accounts messages b T st k :
  accounts_for
    (length (data_messages (create_batch messages ((k - 1) * b) b)))
    (post (world st) (create_batch messages ((k - 1) * b) b)).2 →
  (total_success (step post messages b T st k)
   + total_failed (step post messages b T st k)
   = total_success st + total_failed st
     + Z.of_nat
         (length (data_messages (create_batch messages ((k - 1) * b) b))))%Z.
Proof.
  unfold step, import_batch.
  destruct (post (world st) _) as [w' [| status_code [result |]]];
    cbn [snd accounts_for]; intros H; repeat case_bool_decide;
    cbn [total_success total_failed]; lia.
Qed.

Lemma upload_accounts messages b k w :
  (∀ w' batch,
     accounts_for (length (data_messages batch)) (post w' batch).2) →
  let st := upload post messages b (seq 1 k) (start_state w) in
  (total_success st + total_failed st
   = Z.of_nat (min (k * b) (length messages)))%Z.
Proof.
  intros Hpost. induction k as [| k IH]; [done |].
  cbn zeta in *. rewrite seq_S, upload_snoc.
  rewrite step_accounts by apply Hpost. rewrite IH.
  rewrite create_batch_length. replace (1 + k - 1) with k by lia. lia.
Qed.

(** X11. When every reply accounts for the messages of its batch, the
    successful and failed counts of [batch_import] add up to the number of
    messages of the document. *)
Theorem totals_account_for_every_message (w : World)
    (data : conversation_data) :
  (∀ w' batch,
     accounts_for (length (data_messages batch)) (post w' batch).2) →
  let st := (batch_import post w (Some data)).2 in
  (total_success st + total_failed st
   = Z.of_nat (length (cd_messages data)))%Z.
Proof.
  intros Hpost. unfold batch_import, batch_import_sized.
  cbn [snd total_success total_failed].
  rewrite (upload_accounts (cd_messages data) batch_size _ w Hpost).
  pose proof (total_batches_ceiling (length (cd_messages data)) batch_size
                ltac:(unfold batch_size; lia)) as [Hge _].
  lia.
Qed.

(** ** Total failure *)

Lemma upload_all_failed messages b k w :
  (∀ w' batch, transport_failed (post w' batch).2) →
  let st := upload post messages b (seq 1 k) (start_state w) in
  total_success st = 0%Z
  ∧ total_failed st = Z.of_nat (min (k * b) (length messages)).
Proof.
  intros Hpost. induction k as [| k IH]; [done |].
  cbn zeta in *. destruct IH as [IHs IHf].
  rewrite seq_S, upload_snoc. unfold step.
  destruct (import_batch_failed post
              (world (upload post messages b (seq 1 k) (start_state w)))
              (create_batch messages ((1 + k - 1) * b) b) (1 + k)
              (total_batches_of (length messages) b) (Hpost _ _))
    as (line & _ & ->).
  cbn [total_success total_failed]. rewrite IHs, IHf.
  rewrite create_batch_length. replace (1 + k - 1) with k by lia.
  split; lia.
Qed.

(** X12. When every submission fails, in transport or by its status, the
    run counts no success and all messages as failed, returns [False], and
    the script exits with status 1. *)
Theorem total_failure_of_the_endpoint (w : World) (data : conversation_data) :
  (∀ w' batch, transport_failed (post w' batch).2) →
  let st := (batch_import post w (Some data)).2 in
  total_success st = 0%Z
  ∧ total_failed st = Z.of_nat (length (cd_messages data))
  ∧ (batch_import post w (Some data)).1 = false
  ∧ (main post w (Some data)).1 = 1%Z.
Proof.
  intros Hpost.
  pose proof (upload_all_failed (cd_messages data) batch_size
                (total_batches_of (length (cd_messages data)) batch_size)
                w Hpost) as [Hs Hf].
  pose proof (total_batches_ceiling (length (cd_messages data)) batch_size
                ltac:(unfold batch_size; lia)) as [Hge _].
  cbn zeta in *. rewrite Nat.min_r in Hf by lia.
  unfold main, batch_import, batch_import_sized.
  cbn [fst snd total_success total_failed]. rewrite Hs, Hf.
  rewrite bool_decide_false by lia. done.
Qed.

(** X13. Without a document, or with a document without messages, the
    uploader sends no request, returns [False], and the script exits with
    status 1. *)
Theorem nothing_to_upload (w : World) (metadata : gmap string pyval) :
  let empty := {| conversation_metadata := metadata; cd_messages := [] |} in
  sent (batch_import post w None).2 = []
  ∧ sent (batch_import post w (Some empty)).2 = []
  ∧ (batch_import post w None).1 = false
  ∧ (batch_import post w (Some empty)).1 = false
  ∧ (main post w None).1 = 1%Z
  ∧ (main post w (Some empty)).1 = 1%Z.
Proof. repeat split. Qed.

End UploaderCoverage.

(** * From the parser to the uploader *)

Section PipelineCoverage.

Import ConversationParser BatchImportHistory Notions MoreNotions.

Context {World : Type} (post : World → batch_data → World * reply).

Lemma fresh_object_holds_returned E path file :
  self_messages (self_after (parse_conversation E (init path) file))
  = fresh_run E path file.
Proof.
  unfold fresh_run, parse_conversation.
  by destruct (read_file file) as [[| l ls] report].
Qed.

Lemma uploaded_records (w : World) (data : conversation_data) :
  concat (submitted_batches (batch_import post w (Some data)).2)
  = imap (fun i msg => format_message msg i) (cd_messages data).
Proof.
  unfold batch_import, batch_import_sized, submitted_batches.
  cbn [snd sent]. fold (submitted_batches
                          (upload post (cd_messages data) batch_size
                             (seq 1 (total_batches_of
                                       (length (cd_messages data))
                                       batch_size))
                             (start_state w))).
  rewrite submitted_batches_upload.
  pose proof (total_batches_ceiling (length (cd_messages data)) batch_size
                ltac:(unfold batch_size; lia)) as [Hge Hlt].
  rewrite concat_batches by lia. by rewrite take_ge by lia.
Qed.

(** X14. When the document that the parser saves is uploaded, the
    requests carry, over all batches in order, one record for each parsed
    message: record [i] has the role and content of message [i], the i-th
    identifier that the parser drew as its [externalId], the timestamp
    [base_time + i * 2 minutes], and [original_order] [i]. *)
Theorem parsed_messages_are_uploaded_in_order E path file
    (parsing_timestamp : datetime) (w : World) :
  let document :=
    parsed_document (self_after (parse_conversation E (init path) file))
      parsing_timestamp in
  let records :=
    concat (submitted_batches (batch_import post w (Some document)).2) in
  length records = length (fresh_run E path file)
  ∧ ∀ i f,
      records !! i = Some f →
      externalId f = uuid4 E i
      ∧ f_timestamp f
        = (base_time E + timedelta_minutes (Z.of_nat i * 2))%Z
      ∧ f_metadata f !! "original_order" = Some (PInt (Z.of_nat i))
      ∧ ∃ m, fresh_run E path file !! i = Some m
             ∧ f_role f = role m ∧ f_content f = content m.
Proof.
  intros document records. subst records. rewrite uploaded_records.
  subst document. cbn [parsed_document cd_messages].
  rewrite fresh_object_holds_returned, length_imap. split; [done |].
  intros i f. rewrite list_lookup_imap.
  destruct (fresh_run E path file !! i) as [m |] eqn:Hm; [| done].
  cbn. intros [= <-]. cbn [format_message externalId f_timestamp f_metadata
                            f_role f_content].
  destruct (fresh_run_drawn_in_order E path file i m Hm) as [Hid _].
  split; [done |].
  split; [by apply (fresh_run_stamped E path file) |].
  split; [by rewrite lookup_insert_eq |].
  by exists m.
Qed.

End PipelineCoverage.

(** * Further properties of import_conversation.py *)

Section ImporterCoverage.

Import ImportConversation Notions MoreNotions.

Context {World : Type} (http : World → request → World * reply).
Context (json_error_is_request_exception : bool).

Local Abbreviation import_conversation :=
  (import_conversation http json_error_is_request_exception).
Local Abbreviation run_import :=
  (run_import http json_error_is_request_exception).
Local Abbreviation verify_import :=
  (verify_import http json_error_is_request_exception).

Implicit Types (s : state (World := World)).

(** X15. [prepare_import_payload] puts into the payload one record for
    each message that is not a system message, in the order of the
    document, with the identifier of the message as [externalId]; system
    messages are left out. *)
Theorem prepare_import_payload_skips_system_messages (time_s : Z)
    (conversation : conversation_data) :
  let kept :=
    filter (fun msg => role msg ≠ system) (cd_messages conversation) in
  let payload := prepare_import_payload time_s conversation in
  payload_messages payload = import_message <$> kept
  ∧ record_field "externalId" <$> payload_messages payload
    = (fun msg => Some (PStr (msg_id msg))) <$> kept
  ∧ record_field "role" <$> payload_messages payload
    = (fun msg => Some (PStr (speaker_name (role msg)))) <$> kept.
Proof.
  intros kept payload.
  assert (payload_messages payload = import_message <$> kept) as ->.
  { subst payload kept. unfold payload_messages, prepare_import_payload.
    rewrite lookup_insert_ne, lookup_singleton_eq by done.
    rewrite lookup_insert_ne, lookup_singleton_eq by done.
    induction (cd_messages conversation) as [| m rest IH]; [done |].
    cbn [flat_map]. rewrite filter_cons.
    case_bool_decide; case_decide; try done; cbn; by rewrite IH. }
  split; [done |].
  rewrite <- !list_fmap_compose.
  split; apply list_fmap_ext; intros i m _; cbn; by simplify_map_eq.
Qed.

(** ** Requests *)

Lemma quiet_ret {A} (a : A) : quiet (World := World) (ret a).
Proof. done. Qed.

Lemma quiet_raise {A} e : quiet (World := World) (raise (A := A) e).
Proof. done. Qed.

Lemma quiet_print l : quiet (World := World) (print l).
Proof. done. Qed.

Lemma quiet_bind {A B} (m : M (World := World) A)
    (k : A → M (World := World) B) :
  quiet m → (∀ a, quiet (k a)) → quiet (bind m k).
Proof.
  intros Hm Hk s. unfold bind. specialize (Hm s).
  destruct (m s) as [s' [a | e]]; cbn in *; [| done].
  by rewrite Hk.
Qed.

Lemma quiet_getitem d key : quiet (getitem (World := World) d key).
Proof.
  unfold getitem.
  destruct (d !! key); [apply quiet_ret | apply quiet_raise].
Qed.

Lemma quiet_as_dict v : quiet (as_dict (World := World) v).
Proof. destruct v; first [apply quiet_ret | apply quiet_raise]. Qed.

Lemma test_connectivity_requests s :
  requests (test_connectivity http s).1 = requests s ++ [GetStatus]
  ∧ ∃ ok, (test_connectivity http s).2 = Ret ok.
Proof.
  unfold test_connectivity, send, bind.
  destruct (http (world s) GetStatus) as [w' [| status_code body]]; cbn.
  - split; [done | by eexists].
  - case_bool_decide; cbn; (split; [done | by eexists]).
Qed.

(** X16. Whatever the remote system answers and whatever the document
    holds, [run_import] sends one request, the connectivity check, and no
    import request. *)
Theorem run_import_sends_the_connectivity_check_only (time_s : Z)
    (file : option conversation_data) s :
  requests (run_import time_s file s).1 = requests s ++ [GetStatus].
Proof.
  unfold ImportConversation.run_import. unfold bind at 1.
  destruct (test_connectivity_requests s) as [Hreq [ok Hok]].
  destruct (test_connectivity http s) as [s1 o]. cbn in Hreq, Hok. subst o.
  rewrite <- Hreq.
  destruct ok; cbn [negb]; [| done].
  destruct file as [conversation |];
    [| by apply (quiet_bind _ _ (quiet_print _))].
  repeat (apply quiet_bind;
          [first [apply quiet_getitem | apply quiet_print
                 | apply quiet_as_dict] |]; intros ?).
  destruct (py_len _); [| apply quiet_raise].
  apply quiet_bind; [apply quiet_print |]. intros _.
  intros s'. unfold bind. by rewrite import_conversation_raises.
Qed.


End ImporterCoverage.

(** * Properties of import_aletheia_history.py *)

Section AletheiaHistoryCoverage.

Import ImportAletheiaHistory Notions MoreNotions.

Context {World : Type}.
Context (post : World → BatchImportHistory.batch_data
                → World * ImportConversation.reply).
Context (json_error_is_request_exception : bool).

Local Abbreviation import_to_consciousness :=
  (import_to_consciousness post json_error_is_request_exception).
Local Abbreviation main := (main post json_error_is_request_exception).

Implicit Types (s : state (World := World)).

(** X18. [format_for_import] reshapes every message of the document,
    system messages too, in order; the payload that [create_batch] builds
    for the whole list at once is the same payload with the entries
    [batch_import] and [original_order] added to the metadata of each
    record. *)
Theorem format_for_import_is_create_batch_without_batch_flags
    (conversation : conversation_data) :
  let payload := format_for_import conversation in
  let messages := cd_messages conversation in
  BatchImportHistory.externalId <$> BatchImportHistory.data_messages payload
  = msg_id <$> messages
  ∧ BatchImportHistory.create_batch messages 0 (length messages)
    = {| BatchImportHistory.data_messages :=
           imap with_batch_flags (BatchImportHistory.data_messages payload);
         BatchImportHistory.data_memories :=
           BatchImportHistory.data_memories payload;
         BatchImportHistory.options := BatchImportHistory.options payload |}.
Proof.
  intros payload messages. split.
  - subst payload. cbn. by rewrite <- list_fmap_compose.
  - pose proof (create_batch_slice messages 0 (length messages)) as H.
    unfold slice in H. rewrite drop_0, Nat.min_id, Nat.sub_0_r in H.
    rewrite take_ge in H by done. cbn [Nat.add] in H.
    unfold BatchImportHistory.create_batch in *.
    cbn [BatchImportHistory.data_messages] in H. rewrite H.
    subst payload. cbn. f_equal. rewrite imap_fmap. done.
Qed.

Lemma request_import_outcome payload s :
  sent (request_import post json_error_is_request_exception payload s).1
  = sent s ++ [payload]
  ∧ ((request_import post json_error_is_request_exception payload s).2
     = true ↔
     ∃ w' result,
       post (world s) payload
       = (w', ImportConversation.Response 200 (Some (PDict result)))).
Proof.
  unfold request_import.
  destruct (post (world s) payload) as [w' [| status_code body]]; cbn.
  { split; [done |]. split; [done | by intros (? & ? & ?)]. }
  case_bool_decide as Hstatus.
  2: { split; [done |]. split; [done |]. by intros (? & ? & [= _ ? _]). }
  subst status_code.
  destruct body as [[] |]; cbn;
    (split; [done |]); split; try done; try (by intros (? & ? & ?)).
  intros _. by eexists _, _.
Qed.

(** X19. [import_to_consciousness] returns [True] exactly when the
    document is loaded, has the four counts that are printed, and the
    request is answered with status 200 and a JSON object. It sends one
    request when the document is loaded and has the counts, and none
    otherwise; it raises only for a missing count; and the script exits
    with status 0 exactly when it returns [True]. *)
Theorem import_to_consciousness_outcome
    (file : option conversation_data) s :
  ((import_to_consciousness file s).2 = ImportConversation.Ret true ↔
   ∃ conversation w' result,
     file = Some conversation
     ∧ has_counts conversation
     ∧ post (world s) (format_for_import conversation)
       = (w', ImportConversation.Response 200 (Some (PDict result))))
  ∧ (∀ conversation,
       file = Some conversation → has_counts conversation →
       sent (import_to_consciousness file s).1
       = sent s ++ [format_for_import conversation])
  ∧ ((∀ conversation,
        file = Some conversation → ¬ has_counts conversation) →
     sent (import_to_consciousness file s).1 = sent s)
  ∧ (∀ e,
       (import_to_consciousness file s).2 = ImportConversation.Raise e →
       ∃ conversation key,
         file = Some conversation
         ∧ e = ImportConversation.KeyError key
         ∧ conversation_metadata conversation !! key = None)
  ∧ ((main file s).2 = ImportConversation.Ret 0%Z ↔
     (import_to_consciousness file s).2 = ImportConversation.Ret true).
Proof.
  assert ((main file s).2 = ImportConversation.Ret 0%Z ↔
          (import_to_consciousness file s).2 = ImportConversation.Ret true)
    as Hmain.
  { unfold ImportAletheiaHistory.main.
    by destruct (import_to_consciousness file s) as [s' [[|] | e]]. }
  match goal with
  | |- ?A ∧ ?B ∧ ?C ∧ ?D ∧ _ =>
      cut (A ∧ B ∧ C ∧ D);
      [intros (HA & HB & HC & HD); by repeat (split; [done |]) |]
  end.
  clear Hmain.
  unfold ImportAletheiaHistory.import_to_consciousness, has_counts.
  destruct file as [conversation |]; cbn.
  2: { split; [split; [done | by intros (? & ? & ? & ? & _)] |].
       repeat split; try done. }
  destruct (conversation_metadata conversation !! "total_messages")
    as [total |] eqn:H1.
  2: { split; [split; [done |];
               intros (? & ? & ? & [= <-] & [[] _] & _); congruence |].
       split; [intros ? [= <-] [[] _]; congruence |].
       split; [done |]. intros e [= <-]. by eexists _, _. }
  destruct (conversation_metadata conversation !! "kai_messages")
    as [kai_n |] eqn:H2.
  2: { split; [split; [done |];
               intros (? & ? & ? & [= <-] & (_ & [] & _) & _); congruence |].
       split; [intros ? [= <-] (_ & [] & _); congruence |].
       split; [done |]. intros e [= <-]. by eexists _, _. }
  destruct (conversation_metadata conversation !! "aletheia_messages")
    as [aletheia_n |] eqn:H3.
  2: { split; [split; [done |];
               intros (? & ? & ? & [= <-] & (_ & _ & [] & _) & _);
               congruence |].
       split; [intros ? [= <-] (_ & _ & [] & _); congruence |].
       split; [done |]. intros e [= <-]. by eexists _, _. }
  destruct (conversation_metadata conversation !! "system_messages")
    as [system_n |] eqn:H4.
  2: { split; [split; [done |];
               intros (? & ? & ? & [= <-] & (_ & _ & _ & []) & _);
               congruence |].
       split; [intros ? [= <-] (_ & _ & _ & []); congruence |].
       split; [done |]. intros e [= <-]. by eexists _, _. }
  match goal with
  | |- context [request_import _ _ _ ?st] => set (s1 := st)
  end.
  destruct (request_import_outcome (format_for_import conversation) s1)
    as [Hsent Htrue].
  destruct (request_import post json_error_is_request_exception
              (format_for_import conversation) s1) as [s2 ok].
  cbn in Hsent, Htrue |- *. split; [| split; [| split]].
  - split.
    + intros [= ->]. destruct Htrue as [(w' & result & Hpost) _]; [done |].
      exists conversation, w', result. repeat split; by eauto.
    + intros (c & w' & result & [= <-] & _ & Hpost).
      f_equal. apply Htrue. by eexists _, _.
  - by intros c [= <-] _.
  - intros Hnone. exfalso. apply (Hnone conversation); [done |].
    repeat split; by eauto.
  - done.
Qed.

End AletheiaHistoryCoverage.

(** * Properties of process_conversation.py *)

Section ProcessConversationCoverage.

Import ProcessConversation.

Context (md5_hexdigest : str → str).

Local Abbreviation message_of := (message_of md5_hexdigest).
Local Abbreviation messages_from := (messages_from md5_hexdigest).
Local Abbreviation process_conversation_file :=
  (process_conversation_file md5_hexdigest).

Lemma stripped_lines_not_empty (raw : list str) :
  Forall (fun content => content ≠ []) (stripped_lines raw).
Proof.
  unfold stripped_lines. apply Forall_fmap, Forall_forall.
  intros line Hline. by apply list_elem_of_filter in Hline as [Hline _].
Qed.

Lemma messages_from_contents (lines : list str) : ∀ i,
  Forall (fun content => content ≠ []) lines →
  nd_content <$> messages_from i lines
  = filter (fun content => content ≠ lit "Google Search") lines.
Proof.
  induction lines as [| content rest IH]; intros i Hne; [done |].
  apply Forall_cons in Hne as [Hcontent Hrest].
  cbn [ProcessConversation.messages_from]. rewrite fmap_app, IH by done.
  rewrite filter_cons. unfold ProcessConversation.message_of.
  rewrite (bool_decide_false (content = [])) by done. cbn [orb].
  by case_bool_decide; case_decide.
Qed.

(** X20. [process_conversation_file] writes one message for each line of
    the input that is not blank and whose stripped text is not
    [Google Search], with the stripped text as content, in the order of
    the file, and returns their number. *)
Theorem process_conversation_keeps_the_lines_but_google_search
    (raw : list str) :
  nd_content <$> (process_conversation_file raw).1
  = filter (fun content => content ≠ lit "Google Search")
      (stripped_lines raw)
  ∧ (process_conversation_file raw).2
    = length (filter (fun content => content ≠ lit "Google Search")
                (stripped_lines raw)).
Proof.
  unfold ProcessConversation.process_conversation_file. cbn [fst snd].
  pose proof (messages_from_contents (stripped_lines raw) 0
                (stripped_lines_not_empty raw)) as H.
  split; [exact H |]. by rewrite <- H, length_fmap.
Qed.

(** Every message written for the lines from position [i] on comes from
    a line at a position [j ≥ i], whose parity gives the role and whose
    rank gives the timestamp. *)
Lemma messages_from_positions (lines : list str) : ∀ i m,
  m ∈ messages_from i lines →
  ∃ j, i ≤ j
       ∧ lines !! (j - i) = Some (nd_content m)
       ∧ nd_role m = (if Nat.even j then user else assistant)
       ∧ nd_timestamp m
         = (base_time + timedelta_minutes (Z.of_nat j * 5))%Z.
Proof.
  induction lines as [| content rest IH]; intros i m;
    [by intros ?%not_elem_of_nil |].
  cbn [ProcessConversation.messages_from]. rewrite elem_of_app.
  intros [Hm | Hm].
  - unfold ProcessConversation.message_of in Hm.
    destruct (_ || _); [by apply not_elem_of_nil in Hm |].
    apply list_elem_of_singleton in Hm as ->.
    exists i. rewrite Nat.sub_diag. by repeat split.
  - destruct (IH (S i) m Hm) as (j & Hj & Hline & Hrole & Htime).
    exists j. split; [lia |]. split; [| done].
    replace (j - i) with (S (j - S i)) by lia. done.
Qed.

Lemma messages_from_increasing (lines : list str) : ∀ i a b ma mb,
  messages_from i lines !! a = Some ma →
  messages_from i lines !! b = Some mb →
  a < b → (nd_timestamp ma < nd_timestamp mb)%Z.
Proof.
  induction lines as [| content rest IH]; intros i a b ma mb; [done |].
  cbn [ProcessConversation.messages_from].
  unfold ProcessConversation.message_of.
  destruct (_ || _); [apply IH |].
  cbn [app]. intros Ha Hb Hab.
  destruct b as [| b]; [lia |]. cbn in Hb.
  destruct a as [| a]; cbn in Ha.
  - injection Ha as <-. cbn [nd_timestamp].
    destruct (messages_from_positions rest (S i) mb)
      as (j & Hj & _ & _ & ->); [by eapply list_elem_of_lookup_2 |].
    unfold timedelta_minutes. lia.
  - apply (IH (S i) a b); [done | done | lia].
Qed.

(** X21. Every message that [process_conversation_file] writes is the
    line at some position [j] among the non-blank lines of the input,
    counted from 0: its role is user when [j] is even and assistant when
    it is odd, whatever was skipped before it, and its timestamp is
    [base_time + j * 5 minutes]; so the timestamps increase strictly down
    the output. *)
Theorem process_conversation_roles_and_timestamps (raw : list str) :
  (∀ m,
     m ∈ (process_conversation_file raw).1 →
     ∃ j,
       stripped_lines raw !! j = Some (nd_content m)
       ∧ nd_role m = (if Nat.even j then user else assistant)
       ∧ nd_timestamp m
         = (base_time + timedelta_minutes (Z.of_nat j * 5))%Z)
  ∧ (∀ a b ma mb,
       (process_conversation_file raw).1 !! a = Some ma →
       (process_conversation_file raw).1 !! b = Some mb →
       a < b → (nd_timestamp ma < nd_timestamp mb)%Z).
Proof.
  unfold ProcessConversation.process_conversation_file. cbn [fst]. split.
  - intros m Hm.
    destruct (messages_from_positions _ 0 m Hm) as (j & _ & Hline & H).
    exists j. by rewrite Nat.sub_0_r in Hline.
  - apply messages_from_increasing.
Qed.

End ProcessConversationCoverage.

(** * Properties of setup_auth_and_import.py *)

Section SetupAuthCoverage.

Import ImportConversation SetupAuthAndImport Notions MoreNotions.

Context {World : Type} (http : World → request → World * reply).
Context (json_error_is_request_exception : bool).

Local Abbreviation submit :=
  (SetupAuthAndImport.import_conversation http
     json_error_is_request_exception).

Implicit Types (s : state (World := World)).

(** X22. On the payload that its [prepare_import_payload] builds, the
    [import_conversation] of [setup_auth_and_import.py] finds the records
    under [data], sends the import request once, and returns [True]
    exactly when the answer has status 200 and a JSON object as body; it
    raises no [KeyError]. *)
Theorem setup_import_conversation_submits_the_payload (time_s : Z)
    (conversation : conversation_data) s :
  let payload :=
    SetupAuthAndImport.prepare_import_payload time_s conversation in
  requests (submit payload s).1 = requests s ++ [PostImport payload]
  ∧ ((submit payload s).2 = Ret true ↔
     ∃ w' result,
       http (world s) (PostImport payload)
       = (w', Response 200 (Some (PDict result))))
  ∧ (∀ key, (submit payload s).2 ≠ Raise (KeyError key)).
Proof.
  intros payload.
  unfold SetupAuthAndImport.import_conversation, bind, getitem.
  assert (payload !! "data"
          = Some (PDict
                    (<["memories" := PList []]>
                     {["messages" :=
                         PList
                           (flat_map
                              (fun msg =>
                                 if bool_decide (role msg = system) then []
                                 else [SetupAuthAndImport.import_message msg])
                              (cd_messages conversation))]}))) as ->.
  { subst payload. unfold SetupAuthAndImport.prepare_import_payload.
    by rewrite lookup_insert_ne, lookup_singleton_eq. }
  cbn. unfold getitem.
  rewrite lookup_insert_ne, lookup_singleton_eq by done. cbn.
  unfold send, bind. cbn.
  destruct (http (world s) (PostImport payload))
    as [w' [| status_code body]]; cbn.
  { split; [done |]. split; [| done]. split; [done |]. by intros (? & ? & ?). }
  case_bool_decide as Hstatus; cbn.
  2: { split; [done |]. split; [| done]. split; [done |].
       by intros (? & ? & [= _ ? _]). }
  subst status_code. unfold json_or.
  destruct body as [result |]; cbn.
  2: { destruct json_error_is_request_exception; cbn;
         (split; [done |]); (split; [| done]); (split; [done |]);
         by intros (? & ? & ?). }
  destruct result; cbn; (split; [done |]); (split; [| done]);
    split; try done; try (by intros (? & ? & ?)).
  intros _. by eexists _, _.
Qed.

End SetupAuthCoverage.

(** * Instances of the further properties *)

Section CoverageInstances.

Import Notions MoreNotions.

(** A file of two blank lines. *)
Lemma blank_input_yields_no_message_witness :
  Forall blank (ConversationParser.read_file blank_file).1
  ∧ fresh_run first_run [] blank_file = [].
Proof.
  assert (Forall blank (ConversationParser.read_file blank_file).1) as H
    by (repeat constructor; vm_compute; reflexivity).
  split; [exact H |].
  exact (proj1 (blank_input_yields_no_message first_run [] blank_file H)).
Defined.

(** The identifiers of the scenario, drawn from distinct texts. *)
Lemma identifiers_are_the_draws_in_order_witness :
  (∀ a b, uuid4 first_run a = uuid4 first_run b → a = b)
  ∧ NoDup (msg_id <$> fresh_run first_run [] (Some scenario)).
Proof.
  assert (∀ a b, uuid4 first_run a = uuid4 first_run b → a = b) as Hinj.
  { intros a b H. cbn in H. injection H as H. lia. }
  split; [exact Hinj |].
  exact (proj2 (identifiers_are_the_draws_in_order first_run []
                  (Some scenario)) Hinj).
Defined.

(** A second call on the object that parsed the scenario. *)
Lemma parse_conversation_appends_to_the_object_witness :
  let self :=
    ConversationParser.self_after
      (ConversationParser.parse_conversation first_run
         (ConversationParser.init []) (Some scenario)) in
  (ConversationParser.read_file (Some scenario)).1 ≠ []
  ∧ ∃ new,
      ConversationParser.returned
        (ConversationParser.parse_conversation first_run self (Some scenario))
      = ConversationParser.self_messages self ++ new.
Proof.
  intros self.
  assert ((ConversationParser.read_file (Some scenario)).1 ≠ []) as Hne
    by (vm_compute; discriminate).
  split; [exact Hne |].
  destruct (proj2 (parse_conversation_appends_to_the_object first_run self
                     (Some scenario)) Hne) as (new & Hnew & _).
  exists new. exact Hnew.
Defined.

(** The scenario, read from a file and written. *)
Lemma parser_script_outcomes_witness :
  ∃ document,
    ConversationParser.written
      (ConversationParser.main first_run (fun _ => Some scenario) true
         [lit "conversation_parser.py"; lit "log.txt"]).2
    = [(lit "parsed_conversation.json", document)]
    ∧ cd_messages document
      = fresh_run first_run (lit "log.txt") (Some scenario).
Proof.
  destruct (proj2 (parser_script_outcomes first_run
                     (fun _ => Some scenario) true
                     [lit "conversation_parser.py"; lit "log.txt"])
              (lit "conversation_parser.py") (lit "log.txt") eq_refl)
    as (_ & _ & Hwritten).
  apply Hwritten; [vm_compute; discriminate | reflexivity].
Defined.

(** A line that one of the patterns attributes to aletheia. *)
Lemma detection_in_a_run_witness :
  ConversationParser.detect_speaker_change (ConversationParser.init [])
    (lit "That's it") 3 = Some aletheia
  ∧ existsb
      (fun pattern =>
         pattern (lstrip_of ConversationParser.is_bom (lit "That's it")))
      ConversationParser.aletheia_patterns = true.
Proof.
  assert (ConversationParser.detect_speaker_change
            (ConversationParser.init []) (lit "That's it") 3
          = Some aletheia) as H by (vm_compute; reflexivity).
  split; [exact H |].
  exact (proj1 (proj2 (detection_in_a_run (ConversationParser.init [])
                         (lit "That's it") 3)) eq_refl H).
Defined.

(** An offset at the end of the 120 sample messages. *)
Lemma create_batch_size_witness :
  length sample_messages ≤ 120
  ∧ BatchImportHistory.data_messages
      (BatchImportHistory.create_batch sample_messages 120 50) = [].
Proof.
  assert (length sample_messages ≤ 120) as H by (vm_compute; lia).
  split; [exact H |].
  exact (proj2 (create_batch_size sample_messages 120 50) H).
Defined.

(** An endpoint that reports every message as imported. *)
Lemma totals_account_for_every_message_witness :
  (∀ w' batch,
     accounts_for (length (BatchImportHistory.data_messages batch))
       (thorough_post w' batch).2)
  ∧ (BatchImportHistory.total_success
       (BatchImportHistory.batch_import thorough_post 0%nat
          (Some sample_document)).2
     + BatchImportHistory.total_failed
         (BatchImportHistory.batch_import thorough_post 0%nat
            (Some sample_document)).2
     = 120)%Z.
Proof.
  assert (∀ w' batch,
            accounts_for (length (BatchImportHistory.data_messages batch))
              (thorough_post w' batch).2) as H.
  { intros w' batch _. cbn.
    rewrite lookup_singleton_eq, lookup_singleton_ne by done. cbn. lia. }
  split; [exact H |].
  exact (totals_account_for_every_message thorough_post 0 sample_document H).
Defined.

(** An endpoint that cannot be reached. *)
Lemma total_failure_of_the_endpoint_witness :
  (∀ w' batch, transport_failed (dead_post w' batch).2)
  ∧ BatchImportHistory.total_failed
      (BatchImportHistory.batch_import dead_post 0 (Some sample_document)).2
    = 120%Z
  ∧ (BatchImportHistory.main dead_post 0 (Some sample_document)).1 = 1%Z.
Proof.
  assert (∀ w' batch, transport_failed (dead_post w' batch).2) as H
    by (intros w' batch; exact I).
  split; [exact H |].
  destruct (total_failure_of_the_endpoint dead_post 0 sample_document H)
    as (_ & Hfailed & _ & Hexit).
  split; [exact Hfailed | exact Hexit].
Defined.

(** The first record uploaded for the scenario. *)
Lemma parsed_messages_are_uploaded_in_order_witness :
  let document :=
    ConversationParser.parsed_document
      (ConversationParser.self_after
         (ConversationParser.parse_conversation first_run
            (ConversationParser.init []) (Some scenario))) 0%Z in
  ∃ f,
    concat (submitted_batches
              (BatchImportHistory.batch_import flaky_post 0
                 (Some document)).2) !! 0 = Some f
    ∧ BatchImportHistory.externalId f = uuid4 first_run 0.
Proof.
  intros document.
  destruct (concat (submitted_batches
                      (BatchImportHistory.batch_import flaky_post 0
                         (Some document)).2) !! 0) as [f |] eqn:Hf;
    [| vm_compute in Hf; discriminate Hf].
  exists f. split; [reflexivity |].
  exact (proj1 (proj2 (parsed_messages_are_uploaded_in_order flaky_post
                         first_run [] (Some scenario) 0%Z 0) 0 f Hf)).
Defined.


(** The saved document of the sample messages, sent to an endpoint that
    answers with an object. *)
Lemma import_to_consciousness_outcome_witness :
  has_counts sample_parsed_document
  ∧ (ImportAletheiaHistory.import_to_consciousness accepting_endpoint false
       (Some sample_parsed_document)
       {| ImportAletheiaHistory.world := tt;
          ImportAletheiaHistory.console := [];
          ImportAletheiaHistory.sent := [] |}).2
    = ImportConversation.Ret true.
Proof.
  assert (has_counts sample_parsed_document) as H.
  { repeat split; vm_compute; by eexists. }
  split; [exact H |].
  apply (proj1 (import_to_consciousness_outcome accepting_endpoint false
                  (Some sample_parsed_document)
                  {| ImportAletheiaHistory.world := tt;
                     ImportAletheiaHistory.console := [];
                     ImportAletheiaHistory.sent := [] |})).
  exists sample_parsed_document, tt, ∅. split; [reflexivity |].
  split; [exact H | reflexivity].
Defined.

(** A log of two lines around a search marker. *)
Lemma process_conversation_roles_and_timestamps_witness :
  ∃ ma mb,
    (ProcessConversation.process_conversation_file (fun s => s) short_log).1
    !! 0 = Some ma
    ∧ (ProcessConversation.process_conversation_file (fun s => s)
         short_log).1 !! 1 = Some mb
    ∧ (ProcessConversation.nd_timestamp ma
       < ProcessConversation.nd_timestamp mb)%Z.
Proof.
  destruct ((ProcessConversation.process_conversation_file (fun s => s)
               short_log).1 !! 0) as [ma |] eqn:Ha;
    [| vm_compute in Ha; discriminate Ha].
  destruct ((ProcessConversation.process_conversation_file (fun s => s)
               short_log).1 !! 1) as [mb |] eqn:Hb;
    [| vm_compute in Hb; discriminate Hb].
  exists ma, mb. split; [reflexivity |]. split; [reflexivity |].
  apply (proj2 (process_conversation_roles_and_timestamps (fun s => s)
                  short_log) 0 1 ma mb Ha Hb).
  lia.
Defined.

(** The payload of the sample document, sent to a system that answers
    with an object. *)
Lemma setup_import_conversation_submits_the_payload_witness :
  (SetupAuthAndImport.import_conversation always_json false
     (SetupAuthAndImport.prepare_import_payload 0 sample_parsed_document)
     {| ImportConversation.world := tt; ImportConversation.console := [];
        ImportConversation.requests := [] |}).2
  = ImportConversation.Ret true.
Proof.
  apply (proj2 (proj1 (proj2
           (setup_import_conversation_submits_the_payload always_json false
              0 sample_parsed_document
              {| ImportConversation.world := tt;
                 ImportConversation.console := [];
                 ImportConversation.requests := [] |})))).
  exists tt, ∅. reflexivity.
Defined.

End CoverageInstances.
